(** * Gaming Lounge Manager: the session and billing engine of [src/main.py]

    A shallow embedding of the methods of [GamingLoungeManager] that hold the
    billing rules: station sessions, tiered station cost, service charges, the
    pending-order queue, the settings form and the ledger rows.

    Conventions of the embedding.
    - Python floats are rationals ([Q]).  The sums, differences, products and
      quotients of the code round to the nearest double, as the arithmetic of
      doubles does, and [round(x, 2)] rounds as Python does, on the binary
      value of the double.  There is no NaN, no infinity and no overflow.
    - What [pd.read_excel] makes of the cells of a stored row is a parameter
      of the handlers that read the sheet.
    - A handler returns what it showed in message boxes, how it ended (a normal
      return or an exception that left the handler) and the manager's state
      afterwards.  The answer to an [askyesno] box, the clock and the outcome of
      file operations are arguments of the handler.
    - Widgets that are only written (labels, list boxes, the tree views) are
      left out; the Tk variables the engine reads back are fields of the state. *)

From Stdlib Require Import QArith Qround Qabs Qpower ZArith Lia Lqa Ascii String.
From stdpp Require Import gmap strings list pretty.

Set Warnings "-register-all".

Local Open Scope Q_scope.

(** ** The pieces of the Python runtime the code relies on *)
Module Py.

Inductive exn : Type :=
  | ValueError (msg : string)
  | TypeError (msg : string)
  | KeyError (key : string)
  | IndexError (msg : string)
  | NameError (msg : string)
  | OSError (msg : string).

(** [str(e)] as the handlers interpolate it in an error box. *)
Definition str_exn (e : exn) : string :=
  match e with
  | ValueError m => m
  | TypeError m => m
  | KeyError k => "'" +:+ k +:+ "'"
  | IndexError m => m
  | NameError m => m
  | OSError m => m
  end.

(** [int(x)]: truncation towards zero. *)
Definition int (x : Q) : Z := Z.quot (Qnum x) (Zpos (Qden x)).

(** [x // y] and [x % y] for a positive [y]; on doubles of the size of a
    duration both are exact. *)
Definition floordiv (x y : Q) : Q := inject_Z (Qfloor (x / y)).
Definition mod_ (x y : Q) : Q := x - y * floordiv x y.

(** The nearest integer, ties to the even one. *)
Definition round_half_even (x : Q) : Z :=
  let n := Qfloor x in
  let r := x - inject_Z n in
  match Qcompare r (1 # 2) with
  | Lt => n
  | Gt => (n + 1)%Z
  | Eq => if Z.even n then n else (n + 1)%Z
  end.

(** [2 ** k] for an integer [k]. *)
Definition pow2 (k : Z) : Q := 2 ^ k.

(** The binary exponent of a positive [a]: [2 ** e <= a < 2 ** (e + 1)]. *)
Definition exponent (a : Q) : Z :=
  let e0 := (Z.log2 (Qnum a) - Z.log2 (Zpos (Qden a)))%Z in
  if Qle_bool (pow2 e0) a then e0 else (e0 - 1)%Z.

(** A positive [a] rounded to 53 significant bits, or to a multiple of
    [2 ** -1074] at the bottom of the range, ties to the even mantissa. *)
Definition round_to_double (a : Q) : Q :=
  let shift := Z.min (52 - exponent a) 1074 in
  inject_Z (round_half_even (a * pow2 shift)) * pow2 (- shift).

(** The double nearest to [x].  A value past the largest double is not taken
    to infinity. *)
Definition nearest_double (x : Q) : Q :=
  let x := Qred x in
  match Qcompare x 0 with
  | Eq => 0
  | Gt => Qred (round_to_double x)
  | Lt => - Qred (round_to_double (- x))
  end.

(** [x + y], [x - y], [x * y] and [x / y] on floats: the exact result, rounded
    to the nearest double.  The code divides by 3600 only. *)
Definition fadd (x y : Q) : Q := nearest_double (x + y).
Definition fsub (x y : Q) : Q := nearest_double (x - y).
Definition fmul (x y : Q) : Q := nearest_double (x * y).
Definition fdiv (x y : Q) : Q := nearest_double (x / y).

(** [round(x, 2)]: Python rounds the double it is given, on its exact binary
    value, to the nearest hundredth with ties to the even one.  The result is
    given as that two-place decimal, which is what the rounded double prints
    as. *)
Definition round2 (x : Q) : Q :=
  Qmake (round_half_even (nearest_double x * 100)) 100.

(** [f"{n:02d}"]. *)
Definition fmt_02d (n : Z) : string :=
  let s := pretty n in
  if (String.length s <? 2)%nat then "0" +:+ s else s.

(** [f"{n:,}"]: a comma before every group of three digits. *)
Fixpoint commas_rev (k : nat) (l : list ascii) : list ascii :=
  match l with
  | [] => []
  | c :: r =>
      if (k =? 3)%nat then ","%char :: c :: commas_rev 1 r
      else c :: commas_rev (S k) r
  end.

Definition fmt_comma (n : Z) : string :=
  let digits := String.list_ascii_of_string (pretty (Z.abs n)) in
  let grouped := String.string_of_list_ascii (rev (commas_rev 0 (rev digits))) in
  if (n <? 0)%Z then "-" +:+ grouped else grouped.

(** [", ".join(l)]. *)
Fixpoint join (sep : string) (l : list string) : string :=
  match l with
  | [] => ""
  | [s] => s
  | s :: r => s +:+ sep +:+ join sep r
  end.

(** [sum(...)] over floats: added to [0] from left to right, every addition
    rounded.  (From Python 3.12 on, [sum] makes up for the rounding errors of
    the additions, which can change the last bit of a sum of three or more.) *)
Definition sum (l : list Q) : Q := fold_left fadd l 0.

(** [del l[i]]: [IndexError] when [i] is not a position of [l]. *)
Definition del {A} (l : list A) (i : nat) : exn + list A :=
  if (i <? length l)%nat then inr (delete i l)
  else inl (IndexError "list assignment index out of range").

(** [l[i]]. *)
Definition getitem {A} (l : list A) (i : nat) : exn + A :=
  match l !! i with
  | Some x => inr x
  | None => inl (IndexError "list index out of range")
  end.

End Py.

(** ** Data model *)

(** An entry of a session's or an order's ["services"] list. *)
Record service_entry : Type := ServiceEntry {
  svc_name : string;
  svc_price : Q;
  svc_time : string
}.

(** A value of [self.sessions]. *)
Record session : Type := Session {
  active : bool;
  start_time : option Q;
  customer_name : string;
  services : list service_entry
}.

(** [self.config["offers"]]. *)
Record offers_cfg : Type := Offers {
  enabled : bool;
  rate_2_hour : Q;
  rate_3_hour : Q
}.

(** [self.config], in the shape [__init__] builds it and [save_settings] keeps. *)
Record config_t : Type := Config {
  playstation_rate : Q;
  service_prices : gmap string Q;
  offers : offers_cfg
}.

(** An element of [self.pending_orders]. *)
Record pending_order : Type := PendingOrder {
  customer : string;
  order_services : list service_entry;
  order_total : Q;
  time_added : string
}.

(** A row of the ledger sheet [gaming_lounge_db.xlsx]; an empty text cell is
    the empty string. *)
Record row : Type := Row {
  Date : string;
  Time : string;
  PlayStation : string;
  Customer : string;
  Duration_Hours : string;
  PS_Cost : Q;
  Services : string;
  Service_Cost : Q;
  Total_Cost : Q
}.

(** [self.current_offer], set by [show_bill]. *)
Record offer_t : Type := Offer {
  normal_cost : Q;
  offer_cost : Q;
  savings : Q
}.

Definition default_config : config_t :=
  {| playstation_rate := 6000;
     service_prices :=
       <["coffee" := 2500]> (<["matte" := 5000]> (<["tea" := 2000]>
         (<["shisha" := 5000]> ∅)));
     offers := {| enabled := true; rate_2_hour := 5000; rate_3_hour := 4666 |} |}.

Definition idle_session : session :=
  {| active := false; start_time := None; customer_name := ""; services := [] |}.

(** ** Station cost *)

Definition calculate_ps_cost (config : config_t) (duration_hours : Q) : Q :=
  if negb (enabled (offers config)) then
    Py.fmul duration_hours (playstation_rate config)
  else
    let base_rate := playstation_rate config in
    if Qle_bool 3 duration_hours then
      Py.fmul duration_hours (rate_3_hour (offers config))
    else if Qle_bool 2 duration_hours then
      Py.fmul duration_hours (rate_2_hour (offers config))
    else
      Py.fmul duration_hours base_rate.

(** ** More of the runtime: strings *)
Module PyStr.

Definition is_lower (c : ascii) : bool :=
  let n := nat_of_ascii c in ((97 <=? n) && (n <=? 122))%nat.
Definition is_upper (c : ascii) : bool :=
  let n := nat_of_ascii c in ((65 <=? n) && (n <=? 90))%nat.
Definition upper (c : ascii) : ascii :=
  if is_lower c then ascii_of_nat (nat_of_ascii c - 32) else c.
Definition lower (c : ascii) : ascii :=
  if is_upper c then ascii_of_nat (nat_of_ascii c + 32) else c.

(** [s.title()] on ASCII text: a letter after a letter is lowered, any other
    letter is raised. *)
Fixpoint title_from (after_letter : bool) (s : string) : string :=
  match s with
  | EmptyString => EmptyString
  | String c r =>
      String (if after_letter then lower c else upper c)
             (title_from (is_lower c || is_upper c) r)
  end.
Definition title (s : string) : string := title_from false s.

(** [s.strip()], with the text as its UTF-8 bytes.  Python strips the
    characters that [str.isspace] accepts: U+0009 to U+000D, U+001C to U+0020,
    U+0085, U+00A0, U+1680, U+2000 to U+200A, U+2028, U+2029, U+202F, U+205F
    and U+3000. *)
Definition is_space (c : ascii) : bool :=
  let n := nat_of_ascii c in
  (((9 <=? n) && (n <=? 13)) || ((28 <=? n) && (n <=? 32)))%nat.

(** The second byte of U+0085 and U+00A0, after the byte C2. *)
Definition is_space_C2 (c : ascii) : bool :=
  let n := nat_of_ascii c in ((n =? 133) || (n =? 160))%nat.

(** The last two bytes of a white-space character of three bytes, after the
    lead byte [c1]. *)
Definition is_space3 (c1 c2 c3 : ascii) : bool :=
  let n1 := nat_of_ascii c1 in
  let n2 := nat_of_ascii c2 in
  let n3 := nat_of_ascii c3 in
  (((n1 =? 225) && (n2 =? 154) && (n3 =? 128))
   || ((n1 =? 226) && (n2 =? 128)
       && (((128 <=? n3) && (n3 <=? 138)) || (n3 =? 168) || (n3 =? 169) || (n3 =? 175)))
   || ((n1 =? 226) && (n2 =? 129) && (n3 =? 159))
   || ((n1 =? 227) && (n2 =? 128) && (n3 =? 128)))%nat.

Fixpoint lstrip (s : string) : string :=
  match s with
  | EmptyString => EmptyString
  | String c1 r1 =>
      if is_space c1 then lstrip r1
      else
        match r1 with
        | EmptyString => s
        | String c2 r2 =>
            if (nat_of_ascii c1 =? 194)%nat && is_space_C2 c2 then lstrip r2
            else
              match r2 with
              | EmptyString => s
              | String c3 r3 => if is_space3 c1 c2 c3 then lstrip r3 else s
              end
        end
  end.

(** [lstrip] on the bytes in reverse order: a character is met last byte
    first. *)
Fixpoint lstrip_rev (s : string) : string :=
  match s with
  | EmptyString => EmptyString
  | String c1 r1 =>
      if is_space c1 then lstrip_rev r1
      else
        match r1 with
        | EmptyString => s
        | String c2 r2 =>
            if (nat_of_ascii c2 =? 194)%nat && is_space_C2 c1 then lstrip_rev r2
            else
              match r2 with
              | EmptyString => s
              | String c3 r3 => if is_space3 c3 c2 c1 then lstrip_rev r3 else s
              end
        end
  end.

Definition rev_string (s : string) : string :=
  string_of_list_ascii (rev (list_ascii_of_string s)).
Definition strip (s : string) : string :=
  rev_string (lstrip_rev (rev_string (lstrip s))).

End PyStr.

(** ** The manager's state and what a handler returns *)

Record manager : Type := Manager {
  config : config_t;
  sessions : gmap string session;
  services_only_list : list service_entry;
  pending_orders : list pending_order;
  apply_offer_var : bool;
  current_offer : offer_t;
  (** the rows of [gaming_lounge_db.xlsx] as they were last written *)
  db_file : list row;
  (** what [save_settings] last dumped to [config.json] *)
  config_file : option config_t;
  (** the entries of the settings tab *)
  ps_rate_var : string;
  service_vars : list (string * string);
  offers_enabled_var : bool;
  offer_2h_var : string;
  offer_3h_var : string;
  (** the customer entry of the services-only panel *)
  services_customer_var : string
}.

Definition set_config (c : config_t) (st : manager) : manager :=
  Manager c (sessions st) (services_only_list st) (pending_orders st)
    (apply_offer_var st) (current_offer st) (db_file st) (config_file st)
    (ps_rate_var st) (service_vars st) (offers_enabled_var st) (offer_2h_var st)
    (offer_3h_var st) (services_customer_var st).

Definition set_sessions (s : gmap string session) (st : manager) : manager :=
  Manager (config st) s (services_only_list st) (pending_orders st)
    (apply_offer_var st) (current_offer st) (db_file st) (config_file st)
    (ps_rate_var st) (service_vars st) (offers_enabled_var st) (offer_2h_var st)
    (offer_3h_var st) (services_customer_var st).

Definition set_services_only_list (l : list service_entry) (st : manager) : manager :=
  Manager (config st) (sessions st) l (pending_orders st)
    (apply_offer_var st) (current_offer st) (db_file st) (config_file st)
    (ps_rate_var st) (service_vars st) (offers_enabled_var st) (offer_2h_var st)
    (offer_3h_var st) (services_customer_var st).

Definition set_pending_orders (l : list pending_order) (st : manager) : manager :=
  Manager (config st) (sessions st) (services_only_list st) l
    (apply_offer_var st) (current_offer st) (db_file st) (config_file st)
    (ps_rate_var st) (service_vars st) (offers_enabled_var st) (offer_2h_var st)
    (offer_3h_var st) (services_customer_var st).

Definition set_offer (b : bool) (o : offer_t) (st : manager) : manager :=
  Manager (config st) (sessions st) (services_only_list st) (pending_orders st)
    b o (db_file st) (config_file st)
    (ps_rate_var st) (service_vars st) (offers_enabled_var st) (offer_2h_var st)
    (offer_3h_var st) (services_customer_var st).

Definition set_db_file (d : list row) (st : manager) : manager :=
  Manager (config st) (sessions st) (services_only_list st) (pending_orders st)
    (apply_offer_var st) (current_offer st) d (config_file st)
    (ps_rate_var st) (service_vars st) (offers_enabled_var st) (offer_2h_var st)
    (offer_3h_var st) (services_customer_var st).

Definition set_config_file (f : option config_t) (st : manager) : manager :=
  Manager (config st) (sessions st) (services_only_list st) (pending_orders st)
    (apply_offer_var st) (current_offer st) (db_file st) f
    (ps_rate_var st) (service_vars st) (offers_enabled_var st) (offer_2h_var st)
    (offer_3h_var st) (services_customer_var st).

Definition set_settings_vars (ps : string) (sv : list (string * string)) (en : bool)
    (o2 o3 : string) (st : manager) : manager :=
  Manager (config st) (sessions st) (services_only_list st) (pending_orders st)
    (apply_offer_var st) (current_offer st) (db_file st) (config_file st)
    ps sv en o2 o3 (services_customer_var st).

Definition set_services_customer_var (s : string) (st : manager) : manager :=
  Manager (config st) (sessions st) (services_only_list st) (pending_orders st)
    (apply_offer_var st) (current_offer st) (db_file st) (config_file st)
    (ps_rate_var st) (service_vars st) (offers_enabled_var st) (offer_2h_var st)
    (offer_3h_var st) s.

Inductive dialog : Type :=
  | showinfo (title message : string)
  | showwarning (title message : string)
  | showerror (title message : string).

(** How a handler ended: it returned a value, or an exception left it (Tk
    reports the exception and the main loop goes on). *)
Inductive ending (A : Type) : Type :=
  | Returned (a : A)
  | Raised (e : Py.exn).
Arguments Returned {A} a.
Arguments Raised {A} e.

Record result (A : Type) : Type := Result {
  shown : list dialog;
  ended : ending A;
  after : manager
}.
Arguments Result {A} _ _ _.
Arguments shown {A} _.
Arguments ended {A} _.
Arguments after {A} _.

Definition ret {A} (boxes : list dialog) (a : A) (st : manager) : result A :=
  Result boxes (Returned a) st.
Definition raise {A} (e : Py.exn) (st : manager) : result A :=
  Result [] (Raised e) st.

(** [self.config["services"][service]]. *)
Definition service_price (config : config_t) (service : string) : Py.exn + Q :=
  match service_prices config !! service with
  | Some p => inr p
  | None => inl (Py.KeyError service)
  end.

(** [sum(service["price"] for service in l)]. *)
Definition services_cost (l : list service_entry) : Q := Py.sum (svc_price <$> l).

(** ** Station sessions *)

(** The arguments the two buttons of a station bill window hold on to. *)
Record bill_window : Type := BillWindow {
  bill_ps_name : string;
  bill_duration : Q;
  bill_service_cost : Q
}.

Definition start_session (ps_name : string) (confirm : bool) (now : Q)
    (st : manager) : result unit :=
  if negb confirm then ret [] tt st
  else
    match sessions st !! ps_name with
    | None => raise (Py.KeyError ps_name) st
    | Some s =>
        if active s then
          ret [showwarning "Warning" (ps_name +:+ " is already in use")] tt st
        else
          let started :=
            {| active := true; start_time := Some now;
               customer_name := ""; services := [] |} in
          ret [showinfo "Success" (ps_name +:+ " started")] tt
              (set_sessions (<[ps_name := started]> (sessions st)) st)
    end.

Definition add_service (ps_name service : string) (confirm : bool)
    (now_hms : string) (st : manager) : result unit :=
  match sessions st !! ps_name with
  | None => raise (Py.KeyError ps_name) st
  | Some s =>
      if negb (active s) then
        ret [showwarning "Warning"
               (ps_name +:+ " is not active. Start a session first.")] tt st
      else
        (* the question of the confirmation box already reads the price *)
        match service_price (config st) service with
        | inl e => raise e st
        | inr price =>
            if confirm then
              let service_entry :=
                {| svc_name := service; svc_price := price; svc_time := now_hms |} in
              let s' :=
                {| active := active s; start_time := start_time s;
                   customer_name := customer_name s;
                   services := services s ++ [service_entry] |} in
              ret [showinfo "Success"
                     (PyStr.title service +:+ " added to " +:+ ps_name)] tt
                  (set_sessions (<[ps_name := s']> (sessions st)) st)
            else ret [] tt st
        end
  end.

(** [del self.sessions[ps_name]["services"][index]], with the selected row of
    the list box as [selection]. *)
Definition remove_service (ps_name : string) (selection : option nat)
    (confirm : bool) (st : manager) : result unit :=
  (* self.ps_frames[ps_name] comes first; its keys are those of self.sessions *)
  match sessions st !! ps_name with
  | None => raise (Py.KeyError ps_name) st
  | Some s =>
      match selection with
      | None => ret [showwarning "Warning" "Please select a service to remove"] tt st
      | Some index =>
          match Py.getitem (services s) index with
          | inl e => raise e st
          | inr _ =>
              if confirm then
                match Py.del (services s) index with
                | inl e => raise e st
                | inr l =>
                    let s' :=
                      {| active := active s; start_time := start_time s;
                         customer_name := customer_name s; services := l |} in
                    ret [] tt (set_sessions (<[ps_name := s']> (sessions st)) st)
                end
              else ret [] tt st
          end
      end
  end.

(** [show_bill]: the offer the bill proposes, decided by the duration alone,
    and the bill window it opens.  The labels of the window are only written;
    the [int(...)] in them raises only for a cost that is NaN or infinite,
    which a cost is never here. *)
Definition show_bill (ps_name : string) (duration ps_cost service_cost total_cost : Q)
    (st : manager) : result bill_window :=
  let duration_hours := Py.fdiv duration 3600 in
  let normal_ps_cost := Py.fmul duration_hours (playstation_rate (config st)) in
  let window := BillWindow ps_name duration service_cost in
  if Qle_bool 3 duration_hours then
    let offer_rate := rate_3_hour (offers (config st)) in
    let offer_ps_cost := Py.fmul duration_hours offer_rate in
    let offer_savings := Py.fsub normal_ps_cost offer_ps_cost in
    ret [] window
        (set_offer true (Offer normal_ps_cost offer_ps_cost offer_savings) st)
  else if Qle_bool 2 duration_hours then
    let offer_rate := rate_2_hour (offers (config st)) in
    let offer_ps_cost := Py.fmul duration_hours offer_rate in
    let offer_savings := Py.fsub normal_ps_cost offer_ps_cost in
    ret [] window
        (set_offer true (Offer normal_ps_cost offer_ps_cost offer_savings) st)
  else
    ret [] window (set_offer false (Offer normal_ps_cost normal_ps_cost 0) st).

Definition end_session (ps_name : string) (confirm : bool) (now : Q)
    (st : manager) : result (option bill_window) :=
  if negb confirm then ret [] None st
  else
    match sessions st !! ps_name with
    | None => raise (Py.KeyError ps_name) st
    | Some s =>
        if negb (active s) then
          ret [showwarning "Warning" (ps_name +:+ " is not in use")] None st
        else
          match start_time s with
          | None =>
              raise (Py.TypeError
                "unsupported operand type(s) for -: 'float' and 'NoneType'") st
          | Some t0 =>
              let duration := Py.fsub now t0 in
              let hours := Py.fdiv duration 3600 in
              let ps_cost := calculate_ps_cost (config st) hours in
              let service_cost := services_cost (services s) in
              let total_cost := Py.fadd ps_cost service_cost in
              let r := show_bill ps_name duration ps_cost service_cost total_cost st in
              Result (shown r)
                     (match ended r with
                      | Returned w => Returned (Some w)
                      | Raised e => Raised e
                      end)
                     (after r)
          end
    end.

(** The check box of the bill window writes [self.apply_offer_var]. *)
Definition toggle_offer (apply : bool) (st : manager) : manager :=
  set_offer apply (current_offer st) st.

Definition close_session (ps_name : string) (st : manager) : manager :=
  set_sessions (<[ps_name := idle_session]> (sessions st)) st.

(** [f"{hours:02d}:{minutes:02d}"] of a duration in seconds. *)
Definition format_duration (duration : Q) : string :=
  let hours := Py.int (Py.floordiv duration 3600) in
  let minutes := Py.int (Py.floordiv (Py.mod_ duration 3600) 60) in
  Py.fmt_02d hours +:+ ":" +:+ Py.fmt_02d minutes.

(** The ["Services"] cell of a station row. *)
Definition services_str_of (l : list service_entry) : string :=
  let services_str :=
    Py.join ", "
      ((λ s, svc_name s +:+ "($" +:+ Py.fmt_comma (Py.int (svc_price s)) +:+ ")") <$> l) in
  if String.eqb services_str "" then "None" else services_str.

(** [refresh_database()] as the save handlers call it once the database tab
    exists: it reads the sheet again and reports on today's rows. *)
Definition refresh_database (today : string) (read_excel : option Py.exn)
    : list dialog :=
  match read_excel with
  | Some e => [showerror "Error" ("Failed to refresh database: " +:+ Py.str_exn e)]
  | None => [showinfo "Success" ("Database refreshed for " +:+ today +:+ "!")]
  end.

(** [pd.read_excel(self.db_file)], when it does not fail: the data frame has
    one row for each stored row.  What pandas makes of the cells of a row is
    left to pandas: [read_row df r] is the row [r] of the stored sheet [df] as
    the data frame has it.  A text cell that holds one of pandas' markers of a
    missing value, "N/A" and "None" among them, is read as missing, and
    [to_excel] writes a missing cell back empty. *)
Definition read_sheet (read_row : list row → row → row) (df : list row) : list row :=
  read_row df <$> df.

Definition save_bill_to_database (read_row : list row → row → row)
    (w : bill_window) (confirm : bool)
    (date hms today : string) (read_excel to_excel reread : option Py.exn)
    (st : manager) : result unit :=
  let ps_name := bill_ps_name w in
  let duration := bill_duration w in
  let service_cost := bill_service_cost w in
  let ps_cost :=
    if apply_offer_var st then offer_cost (current_offer st)
    else normal_cost (current_offer st) in
  let total_cost := Py.fadd ps_cost service_cost in
  if negb confirm then ret [] tt st
  else
    let failed (e : Py.exn) :=
      ret [showerror "Error" ("Failed to save to database: " +:+ Py.str_exn e)] tt st in
    match read_excel with
    | Some e => failed e
    | None =>
        let df := read_sheet read_row (db_file st) in
        match sessions st !! ps_name with
        | None => failed (Py.KeyError ps_name)
        | Some s =>
            let services_str := services_str_of (services s) in
            let duration_formatted := format_duration duration in
            let new_row :=
              {| Date := date; Time := hms; PlayStation := ps_name;
                 Customer := "N/A"; Duration_Hours := duration_formatted;
                 PS_Cost := Py.round2 ps_cost; Services := services_str;
                 Service_Cost := Py.round2 service_cost;
                 Total_Cost := Py.round2 total_cost |} in
            match to_excel with
            | Some e => failed e
            | None =>
                ret (showinfo "Success" "Session saved to database!"
                       :: refresh_database today reread) tt
                    (close_session ps_name (set_db_file (df ++ [new_row]) st))
            end
        end
    end.

(** ** Name resolution inside a method body *)

(** The value of an integer name in a scope; an unbound name is a [NameError]. *)
Fixpoint lookup_name (scope : list (string * nat)) (x : string) : Py.exn + nat :=
  match scope with
  | [] => inl (Py.NameError ("name '" +:+ x +:+ "' is not defined"))
  | (y, v) :: rest => if String.eqb y x then inr v else lookup_name rest x
  end.

(** ** The services-only panel, the pending orders and the settings tab *)

(** What the two buttons of a services bill window hold on to. *)
Record services_bill : Type := ServicesBill {
  bill_order : pending_order;
  bill_order_index : nat
}.

Section Handlers.

(** [float(s)] on the text of an entry ([None]: it raises [ValueError]) and
    [str(x)] on a float are left to the runtime, and the cells of a row read
    from the sheet to pandas. *)
Variable float : string → option Q.
Variable str : Q → string.
Variable read_row : list row → row → row.

Definition add_service_only (service : string) (confirm : bool)
    (now_hms : string) (st : manager) : result unit :=
  match service_price (config st) service with
  | inl e => raise e st
  | inr price =>
      if confirm then
        let service_entry :=
          {| svc_name := service; svc_price := price; svc_time := now_hms |} in
        ret [showinfo "Success" (PyStr.title service +:+ " added to current order")] tt
            (set_services_only_list (services_only_list st ++ [service_entry]) st)
      else ret [] tt st
  end.

Definition add_to_pending_orders (confirm : bool) (now_hms : string)
    (st : manager) : result unit :=
  match services_only_list st with
  | [] => ret [showwarning "Warning" "No services in current order"] tt st
  | _ =>
      let customer_name := PyStr.strip (services_customer_var st) in
      if String.eqb customer_name "" then
        ret [showwarning "Warning" "Please enter customer name"] tt st
      else
        let total_cost := services_cost (services_only_list st) in
        if confirm then
          let pending_order :=
            {| customer := customer_name;
               order_services := services_only_list st;
               order_total := total_cost;
               time_added := now_hms |} in
          ret [showinfo "Success"
                 ("Order for " +:+ customer_name +:+ " added to pending orders")] tt
              (set_services_customer_var ""
                 (set_services_only_list []
                    (set_pending_orders (pending_orders st ++ [pending_order]) st)))
        else ret [] tt st
  end.

(** [selection] is the position of the selected row of the pending tree. *)
Definition generate_bill_for_pending (selection : option nat) (confirm : bool)
    (st : manager) : result (option services_bill) :=
  match selection with
  | None => ret [showwarning "Warning" "Please select a pending order"] None st
  | Some item_index =>
      match Py.getitem (pending_orders st) item_index with
      | inl e => raise e st
      | inr order =>
          if confirm then ret [] (Some (ServicesBill order item_index)) st
          else ret [] None st
      end
  end.

(** The ["Services"] cell of a services-only row. *)
Definition order_services_str (l : list service_entry) : string :=
  Py.join ", " ((λ s, svc_name s +:+ "($" +:+ str (svc_price s) +:+ ")") <$> l).

Definition save_pending_to_database (b : services_bill) (confirm : bool)
    (date hms today : string) (read_excel to_excel reread : option Py.exn)
    (st : manager) : result unit :=
  let order := bill_order b in
  let order_index := bill_order_index b in
  if negb confirm then ret [] tt st
  else
    let failed (e : Py.exn) (st' : manager) :=
      ret [showerror "Error" ("Failed to save order: " +:+ Py.str_exn e)] tt st' in
    match read_excel with
    | Some e => failed e st
    | None =>
        let df := read_sheet read_row (db_file st) in
        let services_str := order_services_str (order_services order) in
        let new_row :=
          {| Date := date; Time := hms; PlayStation := "Services Only";
             Customer := customer order; Duration_Hours := "00:00";
             PS_Cost := 0; Services := services_str;
             Service_Cost := Py.round2 (order_total order);
             Total_Cost := Py.round2 (order_total order) |} in
        match to_excel with
        | Some e => failed e st
        | None =>
            let st1 := set_db_file (df ++ [new_row]) st in
            (* del self.pending_orders[item_index]: the parameter is order_index *)
            match lookup_name [("order_index", order_index)] "item_index" with
            | inl e => failed e st1
            | inr item_index =>
                match Py.del (pending_orders st1) item_index with
                | inl e => failed e st1
                | inr l =>
                    ret (showinfo "Success"
                           ("Order for " +:+ customer order +:+ " completed and saved!")
                         :: refresh_database today reread)
                        tt (set_pending_orders l st1)
                end
            end
        end
    end.

Definition remove_pending_order (selection : option nat) (confirm : bool)
    (st : manager) : result unit :=
  match selection with
  | None =>
      ret [showwarning "Warning" "Please select a pending order to remove"] tt st
  | Some item_index =>
      match Py.getitem (pending_orders st) item_index with
      | inl e => raise e st
      | inr order =>
          if confirm then
            match Py.del (pending_orders st) item_index with
            | inl e => raise e st
            | inr l =>
                ret [showinfo "Success" "Pending order removed"] tt
                    (set_pending_orders l st)
            end
          else ret [] tt st
      end
  end.

Definition add_more_services_to_pending (selection : option nat)
    (st : manager) : result unit :=
  match selection with
  | None => ret [showwarning "Warning" "Please select a pending order"] tt st
  | Some item_index =>
      match Py.getitem (pending_orders st) item_index with
      | inl e => raise e st
      | inr order =>
          let st1 :=
            set_services_customer_var (customer order)
              (set_services_only_list (order_services order) st) in
          match Py.del (pending_orders st1) item_index with
          | inl e => raise e st1
          | inr l =>
              ret [showinfo "Info"
                     ("Order for " +:+ customer order +:+
                      " loaded for editing." +:+ String "010" "" +:+
                      "Add more services and click 'Add to Pending Orders' when done.")]
                  tt (set_pending_orders l st1)
          end
      end
  end.

(** [update_service_buttons] only writes button labels, but it reads
    [self.config["services"][service]] for every button; the buttons and the
    entries of the settings tab are built at start-up from the same
    [self.config["services"]], so the services of [service_vars] are the
    services that have a button. *)
Fixpoint update_service_buttons (buttons : list (string * string))
    (config : config_t) : option Py.exn :=
  match buttons with
  | [] => None
  | (service, _) :: rest =>
      match service_price config service with
      | inl e => Some e
      | inr _ => update_service_buttons rest config
      end
  end.

(** The loop of [save_settings] over [self.service_vars.items()]: the prices
    written so far stay written when an entry does not parse. *)
Fixpoint save_service_prices (vars : list (string * string))
    (prices : gmap string Q) : option Py.exn * gmap string Q :=
  match vars with
  | [] => (None, prices)
  | (service, var) :: rest =>
      match float var with
      | None =>
          (Some (Py.ValueError ("could not convert string to float: " +:+ var)),
           prices)
      | Some new_price => save_service_prices rest (<[service := new_price]> prices)
      end
  end.

Definition save_settings (confirm : bool) (dump : option Py.exn)
    (st : manager) : result unit :=
  if negb confirm then ret [] tt st
  else
    let invalid (c : config_t) :=
      ret [showerror "Error" "Please enter valid numbers for all prices"] tt
          (set_config c st) in
    let failed (e : Py.exn) (c : config_t) :=
      ret [showerror "Error" ("Failed to save settings: " +:+ Py.str_exn e)] tt
          (set_config c st) in
    let c0 := config st in
    match float (ps_rate_var st) with
    | None => invalid c0
    | Some new_ps_rate =>
        let c1 := Config new_ps_rate (service_prices c0) (offers c0) in
        let '(err, prices) := save_service_prices (service_vars st) (service_prices c1) in
        let c2 := Config (playstation_rate c1) prices (offers c1) in
        match err with
        | Some _ => invalid c2
        | None =>
            let c3 :=
              Config (playstation_rate c2) (service_prices c2)
                (Offers (offers_enabled_var st) (rate_2_hour (offers c2))
                   (rate_3_hour (offers c2))) in
            match float (offer_2h_var st) with
            | None => invalid c3
            | Some r2 =>
                let c4 :=
                  Config (playstation_rate c3) (service_prices c3)
                    (Offers (enabled (offers c3)) r2 (rate_3_hour (offers c3))) in
                match float (offer_3h_var st) with
                | None => invalid c4
                | Some r3 =>
                    let c5 :=
                      Config (playstation_rate c4) (service_prices c4)
                        (Offers (enabled (offers c4)) (rate_2_hour (offers c4)) r3) in
                    match dump with
                    | Some e => failed e c5
                    | None =>
                        let st5 := set_config_file (Some c5) (set_config c5 st) in
                        match update_service_buttons (service_vars st) c5 with
                        | Some e =>
                            ret [showerror "Error"
                                   ("Failed to save settings: " +:+ Py.str_exn e)] tt st5
                        | None =>
                            ret [showinfo "Success" "Settings saved successfully!"] tt st5
                        end
                    end
                end
            end
        end
    end.

(** The loop of [reset_settings] that refills the service entries. *)
Fixpoint reset_service_vars (vars : list (string * string)) (config : config_t)
    : option Py.exn * list (string * string) :=
  match vars with
  | [] => (None, [])
  | (service, var) :: rest =>
      match service_price config service with
      | inl e => (Some e, (service, var) :: rest)
      | inr p =>
          let '(err, rest') := reset_service_vars rest config in
          (err, (service, str p) :: rest')
      end
  end.

Definition reset_settings (confirm : bool) (st : manager) : result unit :=
  if negb confirm then ret [] tt st
  else
    let c := default_config in
    let st1 := set_config c st in
    let ps := str (playstation_rate c) in
    let '(err, vars) := reset_service_vars (service_vars st) c in
    match err with
    | Some e =>
        raise e (set_settings_vars ps vars (offers_enabled_var st)
                   (offer_2h_var st) (offer_3h_var st) st1)
    | None =>
        let st2 :=
          set_settings_vars ps vars (enabled (offers c))
            (str (rate_2_hour (offers c))) (str (rate_3_hour (offers c))) st1 in
        match update_service_buttons (service_vars st) c with
        | Some e => raise e st2
        | None =>
            ret [showinfo "Success" "Settings reset to default values!"] tt st2
        end
    end.

End Handlers.

(** ** Loading [config.json] at start-up

    [json.load] hands [load_config] whatever the file holds, so here the
    configuration is the dictionary itself, and a field is read the way the
    rest of the program reads it: by chained subscripts. *)
Module ConfigFile.

Inductive json : Type :=
  | JNull
  | JBool (b : bool)
  | JNum (q : Q)
  | JStr (s : string)
  | JArr (l : list json)
  | JObj (m : gmap string json).

(** [d[k]] on a loaded value. *)
Definition getitem (d : json) (k : string) : Py.exn + json :=
  match d with
  | JObj m =>
      match m !! k with
      | Some v => inr v
      | None => inl (Py.KeyError k)
      end
  | _ => inl (Py.TypeError "object is not subscriptable")
  end.

(** [self.config[k1][k2]...]. *)
Fixpoint subscript (d : json) (path : list string) : Py.exn + json :=
  match path with
  | [] => inr d
  | k :: rest =>
      match getitem d k with
      | inl e => inl e
      | inr v => subscript v rest
      end
  end.

(** [self.config] as [__init__] builds it, field for field [default_config]. *)
Definition of_config (c : config_t) : gmap string json :=
  <["playstation_rate" := JNum (playstation_rate c)]>
    (<["services" := JObj (JNum <$> service_prices c)]>
       (<["offers" :=
            JObj (<["enabled" := JBool (enabled (offers c))]>
                    (<["2_hour_rate" := JNum (rate_2_hour (offers c))]>
                       (<["3_hour_rate" := JNum (rate_3_hour (offers c))]> ∅)))]> ∅)).

Definition init_config : gmap string json := of_config default_config.

(** What [load_config] finds: no file, a file that [open] or [json.load]
    rejects, or a settings record (a JSON object). *)
Inductive config_json : Type :=
  | Missing
  | Unreadable (e : Py.exn)
  | Loaded (loaded_config : gmap string json).

(** [load_config]: the new [self.config] and what it printed.
    [self.config.update(loaded_config)] rebinds every key of the loaded
    record at the top level and keeps the other keys. *)
Definition load_config (file : config_json) (config : gmap string json)
    : gmap string json * list string :=
  match file with
  | Missing => (config, [])
  | Unreadable e => (config, ["Could not load config: " +:+ Py.str_exn e])
  | Loaded loaded_config => (loaded_config ∪ config, [])
  end.

(** The configuration after [__init__] has run [load_config]. *)
Definition startup_config (file : config_json) : gmap string json :=
  (load_config file init_config).1.

End ConfigFile.

(** ** A concrete reading and printing of entry text

    [float] on plain decimal text (an optional sign, digits, an optional
    fraction): the double nearest to the decimal.  The other forms Python
    reads (exponents, [inf], [nan], underscores, blanks around the number) are
    not covered: the examples below enter plain decimals, or text that Python
    rejects as well.  [str] on a float: the shortest decimal that reads back
    as the same double. *)
Module Decimal.

Definition digit (c : ascii) : option Z :=
  let n := nat_of_ascii c in
  if ((48 <=? n) && (n <=? 57))%nat then Some (Z.of_nat (n - 48)) else None.

(** the digits of [s] up to its end or a point: value so far and the rest *)
Fixpoint digits (s : string) (acc : Z) (seen : bool) : option (Z * bool * string) :=
  match s with
  | EmptyString => Some (acc, seen, EmptyString)
  | String c r =>
      match digit c with
      | Some d => digits r (acc * 10 + d)%Z true
      | None => if Ascii.eqb c "." then Some (acc, seen, r) else None
      end
  end.

(** the digits after the point: numerator and power of ten *)
Fixpoint fraction (s : string) (num : Z) (den : positive) (seen : bool)
    : option (Z * positive * bool) :=
  match s with
  | EmptyString => Some (num, den, seen)
  | String c r =>
      match digit c with
      | Some d => fraction r (num * 10 + d)%Z (den * 10)%positive true
      | None => None
      end
  end.

Definition unsigned (s : string) : option Q :=
  match digits s 0%Z false with
  | Some (whole, seen_whole, rest) =>
      match fraction rest 0%Z 1%positive false with
      | Some (num, den, seen_frac) =>
          if seen_whole || seen_frac then Some (inject_Z whole + Qmake num den)
          else None
      | None => None
      end
  | None => None
  end.

(** the decimal the text denotes *)
Definition decimal (s : string) : option Q :=
  match s with
  | String "-" r => Qopp <$> unsigned r
  | String "+" r => unsigned r
  | _ => unsigned s
  end.

Definition float (s : string) : option Q := Py.nearest_double <$> decimal s.

(** [10 ** k] for an integer [k]. *)
Definition pow10 (k : Z) : Q := 10 ^ k.

(** The decimal exponent of a positive [x]: [10 ** p <= x < 10 ** (p + 1)]. *)
Definition decimal_exponent (x : Q) : Z :=
  let p0 := (Py.exponent x * 30103 / 100000)%Z in
  let p1 := if Qle_bool (pow10 (p0 + 1)) x then (p0 + 1)%Z else p0 in
  if Qle_bool (pow10 p1) x then p1 else (p1 - 1)%Z.

(** The shortest decimal [m * 10 ** q] that reads back as the positive double
    [x], the nearer one if two of that length do, looked for among those of
    [17 - fuel] digits or more. *)
Fixpoint shortest (fuel : nat) (x : Q) (p : Z) : Z * Z :=
  let n := (17 - Z.of_nat fuel)%Z in
  let q := (p - n + 1)%Z in
  let lo := Qfloor (x / pow10 q) in
  let hi := (lo + 1)%Z in
  let reads_back (m : Z) := Qeq_bool (Py.nearest_double (inject_Z m * pow10 q)) x in
  let nearer :=
    if Qle_bool (x - inject_Z lo * pow10 q) (inject_Z hi * pow10 q - x) then lo else hi in
  match fuel with
  | O => (nearer, q)
  | S fuel' =>
      match reads_back lo, reads_back hi with
      | true, true => (nearer, q)
      | true, false => (lo, q)
      | false, true => (hi, q)
      | false, false => shortest fuel' x p
      end
  end.

(** [m * 10 ** q] without the zeros at the end of [m]. *)
Fixpoint strip_zeros (fuel : nat) (m q : Z) : Z * Z :=
  match fuel with
  | O => (m, q)
  | S fuel' =>
      if ((m mod 10 =? 0) && negb (m =? 0))%Z then strip_zeros fuel' (m / 10) (q + 1)
      else (m, q)
  end.

Definition zeros (n : Z) : string :=
  string_of_list_ascii (repeat "0"%char (Z.to_nat n)).

Definition substring_from (k : Z) (s : string) : string :=
  String.substring (Z.to_nat k) (String.length s - Z.to_nat k) s.

(** [repr] of a positive double: its digits with a point, or with an exponent
    when the point would be far from them. *)
Definition repr_positive (x : Q) : string :=
  let '(m0, q0) := shortest 16 x (decimal_exponent x) in
  let '(m, q) := strip_zeros 17 m0 q0 in
  let ds := pretty m in
  let len := Z.of_nat (String.length ds) in
  let decpt := (q + len)%Z in
  if ((decpt <=? -4) || (16 <? decpt))%Z then
    let e := (decpt - 1)%Z in
    String.substring 0 1 ds
    +:+ (if (1 <? len)%Z then "." +:+ substring_from 1 ds else "")
    +:+ "e" +:+ (if (e <? 0)%Z then "-" else "+")
    +:+ (if (Z.abs e <? 10)%Z then "0" else "") +:+ pretty (Z.abs e)
  else if (decpt <=? 0)%Z then "0." +:+ zeros (- decpt) +:+ ds
  else if (len <=? decpt)%Z then ds +:+ zeros (decpt - len) +:+ ".0"
  else String.substring 0 (Z.to_nat decpt) ds +:+ "." +:+ substring_from decpt ds.

Definition str (x : Q) : string :=
  let x := Py.nearest_double x in
  match Qcompare x 0 with
  | Eq => "0.0"
  | Gt => repr_positive x
  | Lt => "-" +:+ repr_positive (- x)
  end.

End Decimal.

(** ** A concrete reading of the sheet

    The text cells that hold one of pandas' default markers of a missing
    value are read as missing, shown here as an empty cell; every other cell
    is read as it is stored.  Text that pandas would turn into a number or a
    truth value is not covered: the examples below store none. *)
Module Pandas.

Definition na_values : list string :=
  [""; "#N/A"; "#N/A N/A"; "#NA"; "-1.#IND"; "-1.#QNAN"; "-NaN"; "-nan";
   "1.#IND"; "1.#QNAN"; "<NA>"; "N/A"; "NA"; "NULL"; "NaN"; "None"; "n/a";
   "nan"; "null"].

Definition read_cell (text : string) : string :=
  if existsb (String.eqb text) na_values then "" else text.

Definition read_row (df : list row) (r : row) : row :=
  {| Date := read_cell (Date r); Time := read_cell (Time r);
     PlayStation := read_cell (PlayStation r); Customer := read_cell (Customer r);
     Duration_Hours := read_cell (Duration_Hours r); PS_Cost := PS_Cost r;
     Services := read_cell (Services r); Service_Cost := Service_Cost r;
     Total_Cost := Total_Cost r |}.

End Pandas.

(** The state [__init__] leaves behind when there is no [config.json]: the
    built-in prices, four idle stations, no order, an empty ledger, and the
    settings entries filled from the configuration.  [apply_offer_var] and
    [current_offer] do not exist before the first bill; [show_bill] assigns
    both before anything reads them. *)
Definition initial (str : Q → string) : manager :=
  {| config := default_config;
     sessions :=
       <["PS1" := idle_session]> (<["PS2" := idle_session]>
         (<["PS3" := idle_session]> (<["PS4" := idle_session]> ∅)));
     services_only_list := [];
     pending_orders := [];
     apply_offer_var := false;
     current_offer := Offer 0 0 0;
     db_file := [];
     config_file := None;
     ps_rate_var := str 6000;
     service_vars :=
       [("coffee", str 2500); ("matte", str 5000); ("tea", str 2000);
        ("shisha", str 5000)];
     offers_enabled_var := true;
     offer_2h_var := str 5000;
     offer_3h_var := str 4666;
     services_customer_var := "" |}.

(** * Scenarios and the vocabulary of the statements *)

(** Alex orders a tea and a shisha at the services-only panel, the order goes
    to the pending list, and its bill is saved from the bill window. *)
Module AlexOrder.

Definition entered : manager :=
  let st0 := set_services_customer_var "Alex" (initial Decimal.str) in
  let st1 := after (add_service_only "tea" true "10:00:00" st0) in
  after (add_service_only "shisha" true "10:01:00" st1).

Definition queued : manager := after (add_to_pending_orders true "10:02:00" entered).

Definition order : pending_order :=
  {| customer := "Alex";
     order_services :=
       [ServiceEntry "tea" 2000 "10:00:00"; ServiceEntry "shisha" 5000 "10:01:00"];
     order_total := Py.fadd (Py.fadd 0 2000) 5000;
     time_added := "10:02:00" |}.

Definition saved : result unit :=
  save_pending_to_database Decimal.str Pandas.read_row (ServicesBill order 0) true
    "2026-01-05" "10:05:00" "2026-01-05" None None None queued.

End AlexOrder.

(** The entry text reads as a number. *)
Definition parses (float : string → option Q) (text : string) : bool :=
  match float text with Some _ => true | None => false end.

(** Every rate entry of the settings tab reads as a number. *)
Definition entries_parse (float : string → option Q) (st : manager) : bool :=
  parses float (ps_rate_var st)
  && forallb (λ p, parses float p.2) (service_vars st)
  && parses float (offer_2h_var st)
  && parses float (offer_3h_var st).

Definition invalid_numbers : list dialog :=
  [showerror "Error" "Please enter valid numbers for all prices"].

(** The settings form as the user left it: a station rate, the four service
    prices, and the two offer rates. *)
Definition with_entries (ps coffee matte tea shisha o2 o3 : string) : manager :=
  set_settings_vars ps
    [("coffee", coffee); ("matte", matte); ("tea", tea); ("shisha", shisha)]
    true o2 o3 (initial Decimal.str).

(** A settings file that prices coffee only, switches the offers off, and has
    a field the program does not know. *)
Definition coffee_only : ConfigFile.config_json :=
  ConfigFile.Loaded
    (<["services" := ConfigFile.JObj (<["coffee" := ConfigFile.JNum 3000]> ∅)]>
       (<["offers" := ConfigFile.JObj (<["enabled" := ConfigFile.JBool false]> ∅)]>
          (<["theme" := ConfigFile.JStr "dark"]> ∅))).

(** The station cost the bill window settles on: the offer cost when the
    check box is ticked, the normal cost otherwise. *)
Definition chosen_ps_cost (st : manager) : Q :=
  if apply_offer_var st then offer_cost (current_offer st)
  else normal_cost (current_offer st).

(** A session of one hour on PS1 with one coffee, after the settings form has
    set both the station rate and the coffee price to 1.004. *)
Module OddCents.

Definition priced : manager :=
  after (save_settings Decimal.float true None
           (with_entries "1.004" "1.004" "5000" "2000" "5000" "5000" "4666")).

Definition played : manager :=
  let st1 := after (start_session "PS1" true 0 priced) in
  after (add_service "PS1" "coffee" true "10:00:00" st1).

(** PS1 as [played] has it. *)
Definition ps1 : session :=
  Session true (Some 0) "" [ServiceEntry "coffee" (Py.nearest_double 1.004) "10:00:00"].

Definition billed : result (option bill_window) := end_session "PS1" true 3600 played.

Definition window : bill_window :=
  BillWindow "PS1" (Py.fsub 3600 0) (Py.fadd 0 (Py.nearest_double 1.004)).

Definition saved : result unit :=
  save_bill_to_database Pandas.read_row window true "2026-01-05" "11:00:05"
    "2026-01-05" None None None (after billed).

(** The row the save appends. *)
Definition new_row : row :=
  {| Date := "2026-01-05"; Time := "11:00:05"; PlayStation := "PS1";
     Customer := "N/A"; Duration_Hours := "01:00"; PS_Cost := Py.round2 1.004;
     Services := "coffee($1)"; Service_Cost := Py.round2 1.004;
     Total_Cost := Py.round2 2.008 |}.

End OddCents.

(** A session of 10809 seconds on PS1 with one coffee, at the built-in prices,
    saved with the 3-hour offer that the bill proposes. *)
Module LongSession.

Definition played : manager :=
  let st1 := after (start_session "PS1" true 0 (initial Decimal.str)) in
  after (add_service "PS1" "coffee" true "10:00:00" st1).

Definition billed : result (option bill_window) := end_session "PS1" true 10809 played.

Definition window : bill_window := BillWindow "PS1" 10809 2500.

Definition saved : result unit :=
  save_bill_to_database Pandas.read_row window true "2026-01-05" "13:00:09"
    "2026-01-05" None None None (after billed).

End LongSession.

(** What the user can do on the settings tab: type into an entry, tick the
    offers box, save, or reset. *)
Inductive settings_action : Type :=
  | TypeStationRate (text : string)
  | TypeServicePrice (service text : string)
  | TickOffers (on : bool)
  | Type2HourRate (text : string)
  | Type3HourRate (text : string)
  | SaveSettings (confirm : bool) (dump : option Py.exn)
  | ResetSettings (confirm : bool).

(** The entry of [service] now holds [text]. *)
Definition set_service_var (service text : string) (vars : list (string * string))
    : list (string * string) :=
  (λ p, if String.eqb p.1 service then (p.1, text) else p) <$> vars.

Definition settings_step (float : string → option Q) (str : Q → string)
    (a : settings_action) (st : manager) : manager :=
  match a with
  | TypeStationRate text =>
      set_settings_vars text (service_vars st) (offers_enabled_var st)
        (offer_2h_var st) (offer_3h_var st) st
  | TypeServicePrice service text =>
      set_settings_vars (ps_rate_var st) (set_service_var service text (service_vars st))
        (offers_enabled_var st) (offer_2h_var st) (offer_3h_var st) st
  | TickOffers on =>
      set_settings_vars (ps_rate_var st) (service_vars st) on
        (offer_2h_var st) (offer_3h_var st) st
  | Type2HourRate text =>
      set_settings_vars (ps_rate_var st) (service_vars st) (offers_enabled_var st)
        text (offer_3h_var st) st
  | Type3HourRate text =>
      set_settings_vars (ps_rate_var st) (service_vars st) (offers_enabled_var st)
        (offer_2h_var st) text st
  | SaveSettings confirm dump => after (save_settings float confirm dump st)
  | ResetSettings confirm => after (reset_settings str confirm st)
  end.

Definition settings_run (float : string → option Q) (str : Q → string)
    (l : list settings_action) (st : manager) : manager :=
  fold_left (λ st a, settings_step float str a st) l st.

(** The charges the manager holds: those of the stations, of the order being
    entered, and of the pending orders. *)
Definition charges (st : manager)
    : gmap string session * list service_entry * list pending_order :=
  (sessions st, services_only_list st, pending_orders st).

(** PS1 is started with the built-in prices; after a coffee is added, the
    coffee price is retyped as 9999 and saved. *)
Module PriceChange.

Definition started : manager := after (start_session "PS1" true 0 (initial Decimal.str)).

Definition ps1 : session := Session true (Some 0) "" [].

Definition retype : list settings_action :=
  [TypeServicePrice "coffee" "9999"; SaveSettings true None].

Definition served : manager := after (add_service "PS1" "coffee" true "10:00:00" started).

End PriceChange.

(** * The rest of the panels *)

(** ** The services-only panel: taking charges back *)

Definition remove_service_only (selection : option nat) (confirm : bool)
    (st : manager) : result unit :=
  match selection with
  | None => ret [showwarning "Warning" "Please select a service to remove"] tt st
  | Some index =>
      match Py.getitem (services_only_list st) index with
      | inl e => raise e st
      | inr _ =>
          if confirm then
            match Py.del (services_only_list st) index with
            | inl e => raise e st
            | inr l => ret [] tt (set_services_only_list l st)
            end
          else ret [] tt st
      end
  end.

Definition clear_current_order (confirm : bool) (st : manager) : result unit :=
  match services_only_list st with
  | [] => ret [showinfo "Info" "No services in current order"] tt st
  | _ =>
      if confirm then
        ret [showinfo "Success" "Current order cleared"] tt
            (set_services_customer_var "" (set_services_only_list [] st))
      else ret [] tt st
  end.

(** ** The database tab *)




(** [df.drop(df.index[i])]: pandas raises [IndexError] past the last row. *)
Definition drop_row (df : list row) (i : nat) : Py.exn + list row :=
  if (i <? length df)%nat then inr (delete i df)
  else
    inl (Py.IndexError
           ("index " +:+ pretty i +:+ " is out of bounds for axis 0 with size "
            +:+ pretty (length df))).

(** [selection] is the position of the selected row in the tree view. *)
Definition delete_selected_row (read_row : list row → row → row)
    (selection : option nat) (confirm : bool)
    (today : string) (read_excel to_excel reread : option Py.exn)
    (st : manager) : result unit :=
  match selection with
  | None => ret [showwarning "Warning" "Please select a row to delete"] tt st
  | Some item_index =>
      if negb confirm then ret [] tt st
      else
        let failed (e : Py.exn) :=
          ret [showerror "Error" ("Failed to delete record: " +:+ Py.str_exn e)] tt st in
        match read_excel with
        | Some e => failed e
        | None =>
            match drop_row (read_sheet read_row (db_file st)) item_index with
            | inl e => failed e
            | inr df =>
                match to_excel with
                | Some e => failed e
                | None =>
                    ret (refresh_database today reread
                         ++ [showinfo "Success" "Record deleted successfully!"]) tt
                        (set_db_file df st)
                end
            end
        end
  end.

(** ** Everything the user can do

    One action per button press or keystroke that reaches the engine, with
    the answers of the dialogs, the clock and the file system as arguments. *)
Inductive action : Type :=
  | StartSession (ps_name : string) (confirm : bool) (now : Q)
  | AddService (ps_name service : string) (confirm : bool) (now_hms : string)
  | RemoveService (ps_name : string) (selection : option nat) (confirm : bool)
  | EndSession (ps_name : string) (confirm : bool) (now : Q)
  | ToggleOffer (apply : bool)
  | SaveBill (w : bill_window) (confirm : bool) (date hms today : string)
      (read_excel to_excel reread : option Py.exn)
  | CloseWithoutSaving (ps_name : string)
  | TypeCustomer (text : string)
  | AddServiceOnly (service : string) (confirm : bool) (now_hms : string)
  | RemoveServiceOnly (selection : option nat) (confirm : bool)
  | ClearCurrentOrder (confirm : bool)
  | AddToPending (confirm : bool) (now_hms : string)
  | GenerateBill (selection : option nat) (confirm : bool)
  | SavePending (b : services_bill) (confirm : bool) (date hms today : string)
      (read_excel to_excel reread : option Py.exn)
  | RemovePending (selection : option nat) (confirm : bool)
  | AddMoreServices (selection : option nat)
  | DeleteRow (selection : option nat) (confirm : bool) (today : string)
      (read_excel to_excel reread : option Py.exn)
  | OnSettingsTab (a : settings_action).

Definition step (float : string → option Q) (str : Q → string)
    (read_row : list row → row → row) (a : action) (st : manager) : manager :=
  match a with
  | StartSession ps confirm now => after (start_session ps confirm now st)
  | AddService ps service confirm hms => after (add_service ps service confirm hms st)
  | RemoveService ps selection confirm => after (remove_service ps selection confirm st)
  | EndSession ps confirm now => after (end_session ps confirm now st)
  | ToggleOffer apply => toggle_offer apply st
  | SaveBill w confirm date hms today rd wr rr =>
      after (save_bill_to_database read_row w confirm date hms today rd wr rr st)
  | CloseWithoutSaving ps => close_session ps st
  | TypeCustomer text => set_services_customer_var text st
  | AddServiceOnly service confirm hms => after (add_service_only service confirm hms st)
  | RemoveServiceOnly selection confirm => after (remove_service_only selection confirm st)
  | ClearCurrentOrder confirm => after (clear_current_order confirm st)
  | AddToPending confirm hms => after (add_to_pending_orders confirm hms st)
  | GenerateBill selection confirm => after (generate_bill_for_pending selection confirm st)
  | SavePending b confirm date hms today rd wr rr =>
      after (save_pending_to_database str read_row b confirm date hms today rd wr rr st)
  | RemovePending selection confirm => after (remove_pending_order selection confirm st)
  | AddMoreServices selection => after (add_more_services_to_pending selection st)
  | DeleteRow selection confirm today rd wr rr =>
      after (delete_selected_row read_row selection confirm today rd wr rr st)
  | OnSettingsTab a => settings_step float str a st
  end.

Definition run (float : string → option Q) (str : Q → string)
    (read_row : list row → row → row) (l : list action) (st : manager) : manager :=
  fold_left (λ st a, step float str read_row a st) l st.

(** A station is either in use with a start instant, or idle with no start
    instant and no charges. *)
Definition session_ok (s : session) : Prop :=
  (active s = true → is_Some (start_time s)) ∧
  (active s = false → start_time s = None ∧ services s = []).

(** A pending order names a customer, has a charge, and totals its charges. *)
Definition order_ok (o : pending_order) : Prop :=
  customer o ≠ "" ∧
  order_services o ≠ [] ∧
  order_total o = services_cost (order_services o).

(** Every station of the manager is [session_ok]. *)
Definition sessions_ok (st : manager) : Prop :=
  map_Forall (λ _ s, session_ok s) (sessions st).

Definition orders_ok (st : manager) : Prop := Forall order_ok (pending_orders st).

(** The station an action is addressed to. *)
Definition station_of (a : action) : option string :=
  match a with
  | StartSession ps _ _ | AddService ps _ _ _ | RemoveService ps _ _
  | EndSession ps _ _ | CloseWithoutSaving ps => Some ps
  | SaveBill w _ _ _ _ _ _ _ => Some (bill_ps_name w)
  | _ => None
  end.

(** The offers are switched off on the settings tab, then PS1 is started. *)
Module OffersOff.

Definition started : manager :=
  run Decimal.float Decimal.str Pandas.read_row
    [OnSettingsTab (TickOffers false); OnSettingsTab (SaveSettings true None);
     StartSession "PS1" true 0]
    (initial Decimal.str).

Definition ps1 : session := Session true (Some 0) "" [].

End OffersOff.

(** Alex's order as a run of actions, with blanks around the name. *)
Definition alex_actions : list action :=
  [TypeCustomer " Alex "; AddServiceOnly "tea" true "10:00:00";
   AddServiceOnly "shisha" true "10:01:00"; AddToPending true "10:02:00"].

(** PS1 is played for an hour with a coffee and its bill is opened, while
    Alex's order is taken at the services-only panel. *)
Definition playing_actions : list action :=
  [StartSession "PS1" true 0; AddService "PS1" "coffee" true "10:00:00";
   EndSession "PS1" true 3600]
  ++ alex_actions.

(** * Properties *)

(** ** Station cost tiers *)

Lemma Qle_bool_false (x y : Q) : Qle_bool x y = false ↔ y < x.
Proof.
  split.
  - intros H. apply Qnot_le_lt. intros Hle. apply Qle_bool_iff in Hle. congruence.
  - intros H. destruct (Qle_bool x y) eqn:E; [|done].
    apply Qle_bool_iff in E. exfalso. exact (Qlt_not_le _ _ H E).
Qed.

(** C1. With offers disabled the station cost is the duration times the hourly
    rate.  With offers enabled it is the duration times the 3-hour rate from 3
    hours on, the duration times the 2-hour rate from 2 hours up to 3, and the
    duration times the hourly rate below 2 hours; the tiers exclude one
    another, and a duration of exactly 3 hours is charged at the 3-hour rate.
    The product is the product of two floats. *)
Theorem calculate_ps_cost_tiers (config : config_t) (duration_hours : Q) :
  let cost := calculate_ps_cost config duration_hours in
  (enabled (offers config) = false →
     cost = Py.fmul duration_hours (playstation_rate config)) ∧
  (enabled (offers config) = true → 3 <= duration_hours →
     cost = Py.fmul duration_hours (rate_3_hour (offers config))) ∧
  (enabled (offers config) = true → 2 <= duration_hours → duration_hours < 3 →
     cost = Py.fmul duration_hours (rate_2_hour (offers config))) ∧
  (enabled (offers config) = true → duration_hours < 2 →
     cost = Py.fmul duration_hours (playstation_rate config)) ∧
  (enabled (offers config) = true → duration_hours == 3 →
     cost = Py.fmul duration_hours (rate_3_hour (offers config))).
Proof.
  unfold calculate_ps_cost.
  repeat split; intros He; rewrite He; cbn [negb]; try reflexivity.
  - intros H3. apply Qle_bool_iff in H3. by rewrite H3.
  - intros H2 H3. apply Qle_bool_false in H3. apply Qle_bool_iff in H2.
    by rewrite H3, H2.
  - intros H2.
    assert (H3 : duration_hours < 3) by (eapply Qlt_trans; [exact H2 | reflexivity]).
    apply Qle_bool_false in H2, H3. by rewrite H3, H2.
  - intros H3.
    assert (H : 3 <= duration_hours) by (rewrite H3; apply Qle_refl).
    apply Qle_bool_iff in H. by rewrite H.
Qed.

(** The built-in prices at the boundaries: 3 hours cost 13998, 2 hours cost
    10000, and one hour and a half costs 9000. *)
Example calculate_ps_cost_boundaries :
  calculate_ps_cost default_config 3 == 13998 ∧
  calculate_ps_cost default_config 2 == 10000 ∧
  calculate_ps_cost default_config (3 # 2) == 9000.
Proof. by vm_compute. Qed.

(** ** Finalizing a pending order *)

Lemma alex_order_queued :
  pending_orders AlexOrder.queued = [AlexOrder.order] ∧
  ended (generate_bill_for_pending (Some 0%nat) true AlexOrder.queued)
    = Returned (Some (ServicesBill AlexOrder.order 0)).
Proof. by vm_compute. Qed.

(** Whatever it is given, [save_pending_to_database] returns with the pending
    list it found: the name it deletes by is not bound in its body. *)
Lemma save_pending_keeps_pending_orders (str : Q → string)
    (read_row : list row → row → row) (b : services_bill)
    (confirm : bool) (date hms today : string) (read_excel to_excel reread : option Py.exn)
    (st : manager) :
  pending_orders
    (after (save_pending_to_database str read_row b confirm date hms today
              read_excel to_excel reread st))
  = pending_orders st.
Proof.
  unfold save_pending_to_database.
  destruct confirm, read_excel, to_excel; reflexivity.
Qed.

(** C2. Finalizing Alex's order (tea 2000, shisha 5000) at index 0 appends the
    ledger row with station label "Services Only", duration "00:00", station
    cost 0 and services cost and total 7000, but the order is not removed: the
    handler ends in the error box for the unbound name and the pending list
    still holds the order. *)
Theorem save_pending_to_database_leaves_order :
  let r := AlexOrder.saved in
  db_file (after r) =
    [ {| Date := "2026-01-05"; Time := "10:05:00"; PlayStation := "Services Only";
         Customer := "Alex"; Duration_Hours := "00:00"; PS_Cost := 0;
         Services := "tea($2000.0), shisha($5000.0)";
         Service_Cost := Py.round2 7000; Total_Cost := Py.round2 7000 |} ] ∧
  Py.round2 7000 == 7000 ∧
  pending_orders (after r) = [AlexOrder.order] ∧
  shown r =
    [showerror "Error" "Failed to save order: name 'item_index' is not defined"].
Proof. by vm_compute. Qed.

(** ** Applying the settings form *)

Section SaveSettings.

Variable float : string → option Q.

Lemma save_service_prices_ok (vars : list (string * string)) (prices : gmap string Q) :
  (save_service_prices float vars prices).1 = None
  ↔ forallb (λ p, parses float p.2) vars = true.
Proof.
  revert prices. induction vars as [|[service var] rest IH]; intros prices; cbn.
  - done.
  - unfold parses at 1. destruct (float var); cbn; [apply IH | done].
Qed.

Lemma save_settings_cases (dump : option Py.exn) (st : manager) :
  let r := save_settings float true dump st in
  (entries_parse float st = false ∧ shown r = invalid_numbers
     ∧ config_file (after r) = config_file st
     ∧ rate_3_hour (offers (config (after r))) = rate_3_hour (offers (config st))
     ∧ after r = set_config (config (after r)) st)
  ∨ (entries_parse float st = true ∧ shown r ≠ invalid_numbers).
Proof.
  unfold save_settings, entries_parse, parses at 1 3 4 5 7 8. cbn [negb].
  destruct (float (ps_rate_var st)) as [v|]; cbn [andb];
    [|left; repeat split; reflexivity].
  pose proof (save_service_prices_ok (service_vars st) (service_prices (config st))) as Hloop.
  destruct (save_service_prices float (service_vars st) _) as [err prices] eqn:E.
  cbn [fst] in Hloop. cbn [playstation_rate service_prices offers].
  destruct err as [e|].
  - left. destruct (forallb _ _); [|repeat split; reflexivity].
    destruct Hloop as [_ H]. by specialize (H eq_refl).
  - destruct Hloop as [H _]. rewrite (H eq_refl). cbn [andb].
    destruct (float (offer_2h_var st)); cbn [andb]; [|left; repeat split; reflexivity].
    destruct (float (offer_3h_var st)); cbn [andb]; [|left; repeat split; reflexivity].
    right. split; [done|].
    destruct dump; [done|].
    by destruct (update_service_buttons _ _).
Qed.

End SaveSettings.

(** C3, as the code has it.  With the confirmation given, [save_settings] ends
    in the "valid numbers" error exactly when some rate entry does not read as
    a number; the sign is not looked at.  On that error nothing is dumped to
    the settings file, nothing but [self.config] changes, the 3-hour rate is
    the old one, and the configuration is untouched when the station rate is
    the entry that does not read. *)
Theorem save_settings_validation (float : string → option Q)
    (dump : option Py.exn) (st : manager) :
  let r := save_settings float true dump st in
  (shown r = invalid_numbers ↔ entries_parse float st = false) ∧
  (entries_parse float st = false →
     config_file (after r) = config_file st ∧
     after r = set_config (config (after r)) st ∧
     rate_3_hour (offers (config (after r))) = rate_3_hour (offers (config st))) ∧
  (float (ps_rate_var st) = None → after r = st).
Proof.
  cbn zeta.
  pose proof (save_settings_cases float dump st) as Hc. cbn zeta in Hc.
  repeat split.
  - intros Hs. destruct Hc as [(? & _)|(_ & Hn)]; [done | by destruct Hn].
  - intros Hp. destruct Hc as [(_ & ? & _)|(Ht & _)]; [done | congruence].
  - destruct Hc as [(_ & _ & ? & _)|(Ht & _)]; [done | congruence].
  - destruct Hc as [(_ & _ & _ & _ & ?)|(Ht & _)]; [done | congruence].
  - destruct Hc as [(_ & _ & _ & ? & _)|(Ht & _)]; [done | congruence].
  - intros Hf. unfold save_settings. rewrite Hf. cbn. by destruct st.
Qed.

(** C3 does not hold as stated.  A station rate of 7000 next to a 3-hour rate
    of "abc" ends in the error with the station rate already changed from 6000
    to 7000; and a station rate of -5 is saved without complaint. *)
Lemma save_settings_commits_before_error :
  let st := with_entries "7000" "2500" "5000" "2000" "5000" "5000" "abc" in
  let r := save_settings Decimal.float true None st in
  let st' := with_entries "-5" "2500" "5000" "2000" "5000" "5000" "4666" in
  let r' := save_settings Decimal.float true None st' in
  (shown r = invalid_numbers ∧
   playstation_rate (config st) = 6000 ∧
   playstation_rate (config (after r)) = 7000 ∧
   config (after r) ≠ config st) ∧
  (shown r' = [showinfo "Success" "Settings saved successfully!"] ∧
   playstation_rate (config (after r')) = -5).
Proof.
  cbn zeta. repeat split; try by vm_compute.
Qed.

(** ** Loading the settings file *)

Section LoadConfig.

Import ConfigFile.

(** A top-level field the record does not have keeps the value it had. *)
Lemma load_config_keeps_missing_top_level (loaded_config config : gmap string json)
    (field : string) :
  loaded_config !! field = None →
  (load_config (Loaded loaded_config) config).1 !! field = config !! field.
Proof. intros H. cbn. by rewrite lookup_union_r. Qed.

(** A top-level field of the record, known or not, is bound to the loaded
    value whole. *)
Lemma load_config_rebinds_top_level (loaded_config config : gmap string json)
    (field : string) (v : json) :
  loaded_config !! field = Some v →
  (load_config (Loaded loaded_config) config).1 !! field = Some v.
Proof. intros H. cbn. by apply lookup_union_Some_l. Qed.

(** Without a readable file the configuration stays as it was. *)
Lemma load_config_no_file (config : gmap string json) (e : Py.exn) :
  (load_config Missing config).1 = config ∧ (load_config (Unreadable e) config).1 = config.
Proof. done. Qed.

End LoadConfig.

(** C4. Loading a settings record that prices coffee only and only switches the
    offers off: the station rate, missing from the record, keeps its default,
    but the tea price and the 2-hour rate, missing from the record's
    ["services"] and ["offers"], do not keep theirs: reading them raises
    [KeyError].  The unknown field is kept in the configuration. *)
Theorem load_config_loses_nested_defaults :
  let config := ConfigFile.JObj (ConfigFile.startup_config coffee_only) in
  let defaults := ConfigFile.JObj ConfigFile.init_config in
  ConfigFile.subscript defaults ["services"; "tea"] = inr (ConfigFile.JNum 2000) ∧
  ConfigFile.subscript defaults ["offers"; "2_hour_rate"] = inr (ConfigFile.JNum 5000) ∧
  ConfigFile.subscript config ["playstation_rate"] = inr (ConfigFile.JNum 6000) ∧
  ConfigFile.subscript config ["services"; "coffee"] = inr (ConfigFile.JNum 3000) ∧
  ConfigFile.subscript config ["services"; "tea"] = inl (Py.KeyError "tea") ∧
  ConfigFile.subscript config ["offers"; "2_hour_rate"] = inl (Py.KeyError "2_hour_rate") ∧
  ConfigFile.subscript config ["theme"] = inr (ConfigFile.JStr "dark").
Proof. by vm_compute. Qed.

(** ** Removing a pending order *)

Lemma getitem_out_of_range {A} (l : list A) (i : nat) :
  (length l ≤ i)%nat → Py.getitem l i = inl (Py.IndexError "list index out of range").
Proof. intros H. unfold Py.getitem. by rewrite lookup_ge_None_2. Qed.

(** C5. Removing at an index that is not below the length of the pending list
    raises [IndexError], shows nothing, and leaves the manager, and so the
    pending list with its orders and their positions, as it was, whichever way
    the confirmation would have been answered. *)
Theorem remove_pending_order_out_of_range (st : manager) (index : nat) (confirm : bool) :
  (length (pending_orders st) ≤ index)%nat →
  let r := remove_pending_order (Some index) confirm st in
  ended r = Raised (Py.IndexError "list index out of range") ∧
  shown r = [] ∧
  after r = st ∧
  pending_orders (after r) = pending_orders st.
Proof.
  intros H. unfold remove_pending_order.
  by rewrite (getitem_out_of_range _ _ H).
Qed.

Lemma remove_pending_order_out_of_range_witness :
  (length (pending_orders AlexOrder.queued) ≤ 1)%nat ∧
  ended (remove_pending_order (Some 1%nat) true AlexOrder.queued)
    = Raised (Py.IndexError "list index out of range") ∧
  pending_orders (after (remove_pending_order (Some 1%nat) true AlexOrder.queued))
    = [AlexOrder.order].
Proof.
  assert (H : (length (pending_orders AlexOrder.queued) ≤ 1)%nat) by (vm_compute; lia).
  split; [exact H|].
  destruct (remove_pending_order_out_of_range AlexOrder.queued 1 true H) as (He & _ & _ & Hp).
  split; [exact He|]. rewrite Hp. by vm_compute.
Defined.

(** In range, the confirmed removal takes exactly that order out. *)
Example remove_pending_order_in_range :
  pending_orders (after (remove_pending_order (Some 0%nat) true AlexOrder.queued)) = [].
Proof. by vm_compute. Qed.

(** ** Rounding *)

Lemma Qfloor_unique (x : Q) (n : Z) :
  inject_Z n <= x → x < inject_Z (n + 1) → Qfloor x = n.
Proof.
  intros Hl Hu.
  pose proof (Qfloor_le x) as H1. pose proof (Qlt_floor x) as H2.
  assert (Ha : inject_Z (Qfloor x) < inject_Z (n + 1)) by (eapply Qle_lt_trans; eauto).
  assert (Hb : inject_Z n < inject_Z (Qfloor x + 1)) by (eapply Qle_lt_trans; eauto).
  rewrite <- Zlt_Qlt in Ha, Hb. lia.
Qed.

Lemma pow2_pos k : 0 < Py.pow2 k.
Proof. apply Qpower_0_lt. reflexivity. Qed.

Lemma pow2_add i j : Py.pow2 (i + j) == Py.pow2 i * Py.pow2 j.
Proof. apply Qpower_plus. discriminate. Qed.

Lemma pow2_Z k : (0 ≤ k)%Z → Py.pow2 k == inject_Z (2 ^ k).
Proof. intros H. unfold Py.pow2. rewrite Zpower_Qpower by done. reflexivity. Qed.

Lemma pow2_le i j : (i ≤ j)%Z → Py.pow2 i <= Py.pow2 j.
Proof. intros H. apply Qpower_le_compat_l; [done|]. discriminate. Qed.

Lemma pow2_lt i j : (i < j)%Z → Py.pow2 i < Py.pow2 j.
Proof. intros H. apply Qpower_lt_compat_l; [done|]. reflexivity. Qed.

Lemma pow2_lt_inv i j : Py.pow2 i < Py.pow2 j → (i < j)%Z.
Proof. intros H. eapply Qpower_lt_compat_l_inv; [exact H|]. reflexivity. Qed.

Lemma pow2_neg k : Py.pow2 k * Py.pow2 (- k) == 1.
Proof. rewrite <- pow2_add. replace (k + - k)%Z with 0%Z by lia. reflexivity. Qed.

Lemma Qmult_lt_cancel (a b d : Q) : 0 < d → a * d < b * d → a < b.
Proof. intros Hd H. apply (Qmult_lt_r _ _ d Hd). exact H. Qed.

Lemma Qmult_le_cancel (a b d : Q) : 0 < d → a * d <= b * d → a <= b.
Proof. intros Hd H. apply (Qmult_le_r _ _ d Hd). exact H. Qed.

(** The exponent is the one the definition promises, and the only one. *)
Lemma exponent_spec (a : Q) :
  0 < a → Py.pow2 (Py.exponent a) <= a ∧ a < Py.pow2 (Py.exponent a + 1).
Proof.
  intros Ha. destruct a as [n d].
  assert (Hn : (0 < n)%Z) by (unfold Qlt in Ha; cbn in Ha; lia).
  unfold Py.exponent. cbn [Qnum Qden].
  set (ln := Z.log2 n). set (ld := Z.log2 (Z.pos d)).
  pose proof (Z.log2_spec n Hn) as [Hn1 Hn2]. fold ln in Hn1, Hn2.
  pose proof (Z.log2_spec (Z.pos d) eq_refl) as [Hd1 Hd2]. fold ld in Hd1, Hd2.
  pose proof (Z.log2_nonneg n) as Hln. fold ln in Hln.
  pose proof (Z.log2_nonneg (Z.pos d)) as Hld. fold ld in Hld.
  rewrite Zle_Qle in Hn1, Hd1. rewrite Zlt_Qlt in Hn2, Hd2.
  rewrite <- pow2_Z in Hn1, Hd1 by done.
  rewrite <- !pow2_Z in Hn2, Hd2 by lia.
  assert (Hl1 : Py.pow2 (Z.succ ln) == 2 * Py.pow2 ln).
  { unfold Z.succ. rewrite pow2_add. change (Py.pow2 1) with 2. ring. }
  assert (Hd1' : Py.pow2 (Z.succ ld) == 2 * Py.pow2 ld).
  { unfold Z.succ. rewrite pow2_add. change (Py.pow2 1) with 2. ring. }
  rewrite Hl1 in Hn2. rewrite Hd1' in Hd2.
  assert (HAD : (n # d) * inject_Z (Z.pos d) == inject_Z n).
  { unfold Qeq, Qmult, inject_Z. cbn. lia. }
  assert (HE0 : Py.pow2 (ln - ld) * Py.pow2 ld == Py.pow2 ln).
  { rewrite <- pow2_add. replace (ln - ld + ld)%Z with ln by lia. reflexivity. }
  assert (HE1 : Py.pow2 (ln - ld + 1) == 2 * Py.pow2 (ln - ld)).
  { rewrite pow2_add. change (Py.pow2 1) with 2. ring. }
  assert (HEm : 2 * Py.pow2 (ln - ld - 1) == Py.pow2 (ln - ld)).
  { replace (ln - ld)%Z with ((ln - ld - 1) + 1)%Z at 2 by lia.
    rewrite pow2_add. change (Py.pow2 1) with 2. ring. }
  pose proof (pow2_pos ld) as Hpd. pose proof (pow2_pos (ln - ld)) as Hpe.
  pose proof (pow2_pos (ln - ld - 1)) as Hpm.
  assert (HD : 0 < inject_Z (Z.pos d)) by reflexivity.
  set (A := n # d) in *. set (D := inject_Z (Z.pos d)) in *.
  set (N := inject_Z n) in *. set (PL := Py.pow2 ln) in *. set (PD := Py.pow2 ld) in *.
  set (E0 := Py.pow2 (ln - ld)) in *. set (X := Py.pow2 (ln - ld - 1)) in *.
  destruct (Qle_bool E0 A) eqn:E.
  - apply Qle_bool_iff in E. split; [exact E|].
    rewrite HE1. apply (Qmult_lt_cancel _ _ D HD).
    assert (H1 : E0 * PD <= E0 * D) by (apply Qmult_le_l; [exact Hpe | exact Hd1]).
    clearbody A D N PL PD E0 X. clear -HAD Hn2 HE0 H1. lra.
  - assert (E' : A < E0).
    { apply Qnot_le_lt. intros Hle. apply Qle_bool_iff in Hle. congruence. }
    replace (ln - ld - 1 + 1)%Z with (ln - ld)%Z by lia. fold E0. split; [|exact E'].
    fold X. apply (Qmult_le_cancel _ _ D HD).
    assert (H1 : X * D <= X * (2 * PD)).
    { apply Qmult_le_l; [exact Hpm | apply Qlt_le_weak; exact Hd2]. }
    assert (H2 : E0 * PD == 2 * X * PD) by (rewrite <- HEm; ring).
    clearbody A D N PL PD E0 X. clear -HAD Hn1 HE0 H1 H2. lra.
Qed.

Lemma exponent_unique (a : Q) (k : Z) :
  0 < a → Py.pow2 k <= a → a < Py.pow2 (k + 1) → Py.exponent a = k.
Proof.
  intros Ha Hl Hu. destruct (exponent_spec a Ha) as [Hl' Hu'].
  assert (H1 : Py.pow2 k < Py.pow2 (Py.exponent a + 1)) by (eapply Qle_lt_trans; eauto).
  assert (H2 : Py.pow2 (Py.exponent a) < Py.pow2 (k + 1)) by (eapply Qle_lt_trans; eauto).
  apply pow2_lt_inv in H1, H2. lia.
Qed.

Lemma round_half_even_near (x : Q) :
  inject_Z (Py.round_half_even x) - (1 # 2) <= x ∧
  x <= inject_Z (Py.round_half_even x) + (1 # 2).
Proof.
  unfold Py.round_half_even.
  pose proof (Qfloor_le x) as H1. pose proof (Qlt_floor x) as H2.
  rewrite inject_Z_plus in H2. change (inject_Z 1) with 1 in H2.
  destruct (Qcompare (x - inject_Z (Qfloor x)) (1 # 2)) eqn:E.
  - apply Qeq_alt in E.
    destruct (Z.even (Qfloor x)); rewrite ?inject_Z_plus; change (inject_Z 1) with 1; lra.
  - apply Qlt_alt in E. lra.
  - apply Qgt_alt in E. rewrite inject_Z_plus. change (inject_Z 1) with 1. lra.
Qed.

Lemma round_half_even_comp (x y : Q) :
  x == y → Py.round_half_even x = Py.round_half_even y.
Proof.
  intros E. unfold Py.round_half_even. rewrite (Qfloor_comp _ _ E).
  assert (Ec : Qcompare (x - inject_Z (Qfloor y)) (1 # 2)
             = Qcompare (y - inject_Z (Qfloor y)) (1 # 2)).
  { apply Qcompare_comp; [by rewrite E | reflexivity]. }
  by rewrite Ec.
Qed.

Lemma round_half_even_whole (z : Z) : Py.round_half_even (inject_Z z) = z.
Proof.
  unfold Py.round_half_even. rewrite Qfloor_Z.
  assert (Ec : Qcompare (inject_Z z - inject_Z z) (1 # 2) = Lt).
  { rewrite <- Qlt_alt. lra. }
  by rewrite Ec.
Qed.

Lemma round_half_even_lower (x : Q) (l : Z) :
  inject_Z l <= x → (l ≤ Py.round_half_even x)%Z.
Proof.
  intros Hl. destruct (round_half_even_near x) as [_ H2].
  set (m := Py.round_half_even x) in *. clearbody m.
  assert (A : inject_Z (2 * l) <= inject_Z (2 * m + 1)).
  { rewrite inject_Z_plus, !inject_Z_mult. change (inject_Z 2) with 2.
    change (inject_Z 1) with 1. lra. }
  rewrite <- Zle_Qle in A. lia.
Qed.

Lemma round_half_even_upper (x : Q) (u : Z) :
  x <= inject_Z u → (Py.round_half_even x ≤ u)%Z.
Proof.
  intros Hu. destruct (round_half_even_near x) as [H1 _].
  set (m := Py.round_half_even x) in *. clearbody m.
  assert (B : inject_Z (2 * m) <= inject_Z (2 * u + 1)).
  { rewrite inject_Z_plus, !inject_Z_mult. change (inject_Z 2) with 2.
    change (inject_Z 1) with 1. lra. }
  rewrite <- Zle_Qle in B. lia.
Qed.

(** Rounding a positive number gives zero, or a number that rounding leaves
    as it is. *)
Lemma round_to_double_fix (a : Q) :
  0 < a →
  Py.round_to_double a == 0 ∨
  (0 < Py.round_to_double a ∧
   ∀ y, y == Py.round_to_double a → Py.round_to_double y == Py.round_to_double a).
Proof.
  intros Ha. destruct (exponent_spec a Ha) as [Hlo Hhi].
  set (e := Py.exponent a) in *.
  set (shift := Z.min (52 - e) 1074).
  set (z := a * Py.pow2 shift).
  set (m := Py.round_half_even z).
  assert (Hr : Py.round_to_double a = inject_Z m * Py.pow2 (- shift)) by reflexivity.
  rewrite Hr. clear Hr.
  pose proof (pow2_pos shift) as Hps. pose proof (pow2_pos (- shift)) as Hpn.
  assert (Hz : 0 < z) by (apply Qmult_lt_0_compat; done).
  assert (Hm0 : (0 ≤ m)%Z).
  { apply round_half_even_lower. change (inject_Z 0) with 0. by apply Qlt_le_weak. }
  destruct (decide (m = 0%Z)) as [Hm|Hm].
  { left. rewrite Hm. change (inject_Z 0) with 0. ring. }
  right.
  assert (Hmq : 0 < inject_Z m).
  { change 0 with (inject_Z 0). rewrite <- Zlt_Qlt. lia. }
  assert (Hy : 0 < inject_Z m * Py.pow2 (- shift)) by (apply Qmult_lt_0_compat; done).
  split; [exact Hy|]. intros y Ey.
  assert (Hypos : 0 < y) by (rewrite Ey; exact Hy).
  set (k := Z.log2 m).
  assert (Hk0 : (0 ≤ k)%Z) by apply Z.log2_nonneg.
  destruct (Z.log2_spec m ltac:(lia)) as [Hk1 Hk2]. fold k in Hk1, Hk2.
  rewrite Zle_Qle in Hk1. rewrite Zlt_Qlt in Hk2.
  rewrite <- pow2_Z in Hk1 by done. rewrite <- pow2_Z in Hk2 by lia.
  assert (Hey : Py.exponent y = (k - shift)%Z).
  { apply exponent_unique; [done| |]; rewrite Ey.
    - replace (k - shift)%Z with (k + - shift)%Z by lia. rewrite pow2_add.
      apply Qmult_le_compat_r; [exact Hk1 | by apply Qlt_le_weak].
    - replace (k - shift + 1)%Z with (Z.succ k + - shift)%Z by lia. rewrite pow2_add.
      apply Qmult_lt_compat_r; [exact Hpn | exact Hk2]. }
  assert (Hcase : (k ≤ 52 ∧ (shift = 1074 ∨ k = 52) ∧ shift ≤ 1074)%Z
                  ∨ (m = 2 ^ 53 ∧ shift ≤ 1074)%Z).
  { assert (Hsle : (shift ≤ 1074)%Z) by apply Z.le_min_r.
    assert (Hz2 : z <= Py.pow2 53).
    { eapply Qle_trans; [|apply (pow2_le ((e + 1) + shift)); lia].
      rewrite pow2_add.
      apply Qmult_le_compat_r; [by apply Qlt_le_weak | by apply Qlt_le_weak]. }
    rewrite pow2_Z in Hz2 by lia.
    apply round_half_even_upper in Hz2. fold m in Hz2.
    destruct (decide (m = (2 ^ 53)%Z)) as [E|E]; [right; split; [done|lia]|left].
    assert (Hu : (k < 53)%Z) by (apply Z.log2_lt_pow2; lia).
    destruct (Z.min_spec (52 - e) 1074) as [[Hlt Hs]|[Hge Hs]]; fold shift in Hs;
      [|lia].
    assert (Hz1 : Py.pow2 52 <= z).
    { replace 52%Z with (e + shift)%Z by lia. rewrite pow2_add.
      apply Qmult_le_compat_r; [exact Hlo | by apply Qlt_le_weak]. }
    rewrite pow2_Z in Hz1 by lia.
    apply round_half_even_lower in Hz1. fold m in Hz1.
    assert (Hl : (52 ≤ k)%Z).
    { unfold k. rewrite <- (Z.log2_pow2 52) by lia. by apply Z.log2_le_mono. }
    lia. }
  unfold Py.round_to_double. rewrite Hey.
  destruct Hcase as [(Hk & Hor & Hle)|[Hm53 Hle]].
  - assert (Hshift : Z.min (52 - (k - shift)) 1074 = shift) by lia.
    rewrite Hshift.
    assert (Ez : y * Py.pow2 shift == inject_Z m).
    { rewrite Ey, <- Qmult_assoc, (Qmult_comm (Py.pow2 (- shift))), pow2_neg. ring. }
    rewrite (round_half_even_comp _ _ Ez), round_half_even_whole. reflexivity.
  - assert (Hk53 : k = 53%Z) by (unfold k; rewrite Hm53; apply Z.log2_pow2; lia).
    assert (Hshift : Z.min (52 - (k - shift)) 1074 = (shift - 1)%Z) by lia.
    rewrite Hshift.
    assert (Ehalf : Py.pow2 (- shift) * Py.pow2 (shift - 1) == 1 # 2).
    { rewrite <- pow2_add. replace (- shift + (shift - 1))%Z with (-1)%Z by lia.
      reflexivity. }
    assert (E53 : inject_Z (2 ^ 53) == 2 * inject_Z (2 ^ 52)) by reflexivity.
    assert (Ez : y * Py.pow2 (shift - 1) == inject_Z (2 ^ 52)).
    { rewrite Ey, Hm53, <- Qmult_assoc, Ehalf, E53. field. }
    rewrite (round_half_even_comp _ _ Ez), round_half_even_whole.
    replace (- (shift - 1))%Z with (1 + - shift)%Z by lia.
    rewrite pow2_add, Hm53, E53. change (Py.pow2 1) with 2. ring.
Qed.

(** ** The nearest double of a double *)

Lemma Qred_involutive (q : Q) : Qred (Qred q) = Qred q.
Proof. apply Qred_complete, Qred_correct. Qed.

(** A double is its own nearest double. *)
Lemma nearest_double_idempotent (x : Q) :
  Py.nearest_double (Py.nearest_double x) = Py.nearest_double x.
Proof.
  unfold Py.nearest_double at 2 3. cbv zeta.
  set (x' := Qred x).
  destruct (Qcompare x' 0) eqn:C.
  - reflexivity.
  - apply Qlt_alt in C.
    assert (Hpos : 0 < - x') by lra.
    destruct (round_to_double_fix (- x') Hpos) as [E0|[Hy Hfix]].
    + rewrite (Qred_complete _ 0 E0). reflexivity.
    + set (y := Py.round_to_double (- x')) in *.
      unfold Py.nearest_double.
      assert (Er : Qred (- Qred y) = - Qred y).
      { rewrite Qred_opp. f_equal. apply Qred_involutive. }
      rewrite Er.
      assert (Hneg : Qcompare (- Qred y) 0 = Lt).
      { rewrite <- Qlt_alt, Qred_correct. lra. }
      rewrite Hneg.
      f_equal. apply Qred_complete. apply Hfix.
      rewrite Qopp_involutive. apply Qred_correct.
  - apply Qgt_alt in C.
    destruct (round_to_double_fix x' C) as [E0|[Hy Hfix]].
    + rewrite (Qred_complete _ 0 E0). reflexivity.
    + set (y := Py.round_to_double x') in *.
      unfold Py.nearest_double. rewrite Qred_involutive.
      assert (Hp : Qcompare (Qred y) 0 = Gt).
      { rewrite <- Qgt_alt, Qred_correct. exact Hy. }
      rewrite Hp.
      apply Qred_complete. apply Hfix. apply Qred_correct.
Qed.

(** Rounding to hundredths looks at the double only. *)
Lemma round2_nearest_double (x : Q) : Py.round2 (Py.nearest_double x) = Py.round2 x.
Proof. unfold Py.round2. by rewrite nearest_double_idempotent. Qed.

(** Rounding does not tell apart two ways of writing the same number. *)
Lemma nearest_double_comp (x y : Q) :
  x == y → Py.nearest_double x = Py.nearest_double y.
Proof. intros E. unfold Py.nearest_double. by rewrite (Qred_complete _ _ E). Qed.

Lemma round2_comp (x y : Q) : x == y → Py.round2 x = Py.round2 y.
Proof. intros E. unfold Py.round2. by rewrite (nearest_double_comp _ _ E). Qed.

(** The literals whose double lies off the decimal tie round as they do in
    Python, and a tie that is a double goes to the even hundredth. *)
Example round2_of_doubles :
  Py.round2 2.675 == 2.67 ∧ Py.round2 2.665 == 2.67 ∧ Py.round2 1.015 == 1.01 ∧
  Py.round2 0.005 == 0.01 ∧ Py.round2 0.125 == 0.12 ∧ Py.round2 0.375 == 0.38 ∧
  Py.round2 (-2.675) == -2.67 ∧ Py.round2 7000 == 7000.
Proof. by vm_compute. Qed.

(** ** Saving a station bill *)

(** Reading the sheet gives as many rows as were stored. *)
Lemma read_sheet_length (read_row : list row → row → row) (df : list row) :
  length (read_sheet read_row df) = length df.
Proof. apply length_fmap. Qed.

Lemma read_sheet_grows (read_row : list row → row → row) (df : list row) (r : row) :
  df ≠ read_sheet read_row df ++ [r].
Proof.
  intros E. apply (f_equal length) in E.
  rewrite length_app, read_sheet_length in E. cbn in E. lia.
Qed.

(** The one row [save_bill_to_database] can append. *)
Lemma save_bill_to_database_row (read_row : list row → row → row) (w : bill_window)
    (confirm : bool) (date hms today : string)
    (read_excel to_excel reread : option Py.exn) (st : manager) (new_row : row) :
  db_file (after (save_bill_to_database read_row w confirm date hms today
                    read_excel to_excel reread st))
    = read_sheet read_row (db_file st) ++ [new_row] →
  ∃ s, sessions st !! bill_ps_name w = Some s ∧
    new_row =
      {| Date := date; Time := hms; PlayStation := bill_ps_name w;
         Customer := "N/A"; Duration_Hours := format_duration (bill_duration w);
         PS_Cost := Py.round2 (chosen_ps_cost st);
         Services := services_str_of (services s);
         Service_Cost := Py.round2 (bill_service_cost w);
         Total_Cost := Py.round2 (Py.fadd (chosen_ps_cost st) (bill_service_cost w)) |}.
Proof.
  pose proof (read_sheet_grows read_row (db_file st) new_row) as Hsame.
  unfold save_bill_to_database.
  destruct confirm; cbn [negb]; [|done].
  destruct read_excel; [done|].
  destruct (sessions st !! bill_ps_name w) as [s|] eqn:Hs; [|done].
  destruct to_excel; [done|].
  cbn. intros E. apply app_inv_head in E. injection E as <-. by exists s.
Qed.

(** With the confirmation given, the sheet readable and writable and the
    station known, a row is appended to the rows read. *)
Lemma save_bill_to_database_appends (read_row : list row → row → row)
    (w : bill_window) (date hms today : string) (st : manager) (s : session) :
  sessions st !! bill_ps_name w = Some s →
  ∃ new_row,
    db_file (after (save_bill_to_database read_row w true date hms today
                      None None None st))
      = read_sheet read_row (db_file st) ++ [new_row].
Proof. intros Hs. unfold save_bill_to_database. rewrite Hs. cbn. eauto. Qed.

Lemma odd_cents_billed : ended OddCents.billed = Returned (Some OddCents.window).
Proof. by vm_compute. Qed.

(** C6, as the code has it.  In a row appended on saving a station bill each
    of the three money cells is rounded to hundredths on its own: the chosen
    station cost, the service cost, and the sum of the two before either is
    rounded.  For a bill without service charges the stored service cost is
    zero and the stored total is the stored station cost, so the three cells
    add up. *)
Theorem save_bill_to_database_money (read_row : list row → row → row)
    (w : bill_window) (confirm : bool) (date hms today : string)
    (read_excel to_excel reread : option Py.exn) (st : manager) (new_row : row) :
  db_file (after (save_bill_to_database read_row w confirm date hms today
                    read_excel to_excel reread st))
    = read_sheet read_row (db_file st) ++ [new_row] →
  PS_Cost new_row = Py.round2 (chosen_ps_cost st) ∧
  Service_Cost new_row = Py.round2 (bill_service_cost w) ∧
  Total_Cost new_row = Py.round2 (Py.fadd (chosen_ps_cost st) (bill_service_cost w)) ∧
  (bill_service_cost w == 0 →
     Service_Cost new_row == 0 ∧
     Total_Cost new_row = PS_Cost new_row ∧
     Total_Cost new_row == PS_Cost new_row + Service_Cost new_row).
Proof.
  intros H. apply save_bill_to_database_row in H as (s & _ & ->).
  cbn [PS_Cost Service_Cost Total_Cost].
  split; [done|]. split; [done|]. split; [done|].
  intros H0.
  assert (Hs : Py.round2 (bill_service_cost w) == 0).
  { rewrite (round2_comp _ 0 H0). by vm_compute. }
  assert (Ht : Py.round2 (Py.fadd (chosen_ps_cost st) (bill_service_cost w))
               = Py.round2 (chosen_ps_cost st)).
  { unfold Py.fadd.
    rewrite (nearest_double_comp (chosen_ps_cost st + bill_service_cost w)
               (chosen_ps_cost st)) by (rewrite H0; ring).
    apply round2_nearest_double. }
  split; [exact Hs|]. split; [exact Ht|].
  rewrite Ht, Hs. ring.
Qed.

Lemma save_bill_to_database_money_witness :
  db_file (after (save_bill_to_database Pandas.read_row OddCents.window true
                    "2026-01-05" "11:00:05" "2026-01-05"
                    None None None (after OddCents.billed)))
    = read_sheet Pandas.read_row (db_file (after OddCents.billed))
      ++ [OddCents.new_row] ∧
  Total_Cost OddCents.new_row
    = Py.round2 (Py.fadd (chosen_ps_cost (after OddCents.billed))
                   (bill_service_cost OddCents.window)).
Proof.
  assert (H : db_file (after (save_bill_to_database Pandas.read_row OddCents.window true
                                "2026-01-05" "11:00:05" "2026-01-05"
                                None None None (after OddCents.billed)))
              = read_sheet Pandas.read_row (db_file (after OddCents.billed))
                ++ [OddCents.new_row])
    by (vm_compute; reflexivity).
  split; [exact H|].
  pose proof (save_bill_to_database_money Pandas.read_row OddCents.window true
                "2026-01-05" "11:00:05" "2026-01-05" None None None
                (after OddCents.billed) OddCents.new_row H)
    as (_ & _ & Htotal & _).
  exact Htotal.
Defined.

(** C6 does not hold as stated.  At the built-in prices, a session of 10809
    seconds with one coffee, saved at the 3-hour rate as the bill proposes,
    stores 14009.66, 2500 and a total of 16509.67.  With a station cost of
    1.004 and a service cost of 1.004 the row stores 1.00, 1.00 and a total of
    2.01. *)
Lemma odd_cents_total_is_a_cent_off :
  (ended LongSession.billed = Returned (Some LongSession.window) ∧
   ∃ new_row,
     db_file (after LongSession.saved) = [new_row] ∧
     PS_Cost new_row == 14009.66 ∧
     Service_Cost new_row == 2500 ∧
     Total_Cost new_row == 16509.67 ∧
     ¬ Total_Cost new_row == PS_Cost new_row + Service_Cost new_row) ∧
  (ended OddCents.billed = Returned (Some OddCents.window) ∧
   ∃ new_row,
     db_file (after OddCents.saved) = [new_row] ∧
     PS_Cost new_row == 1 ∧
     Service_Cost new_row == 1 ∧
     Total_Cost new_row == 2.01 ∧
     ¬ Total_Cost new_row == PS_Cost new_row + Service_Cost new_row).
Proof.
  split; (split; [by vm_compute|]);
    (eexists; split; [by vm_compute|]; cbn [PS_Cost Service_Cost Total_Cost];
     repeat split; by vm_compute).
Qed.

(** ** Ending a session *)

(** [end_session] never writes [self.sessions]. *)
Lemma end_session_sessions (ps_name : string) (confirm : bool) (now : Q) (st : manager) :
  sessions (after (end_session ps_name confirm now st)) = sessions st.
Proof.
  unfold end_session, show_bill.
  destruct confirm; cbn [negb]; [|done].
  destruct (sessions st !! ps_name) as [s|]; [|done].
  destruct (active s); cbn [negb]; [|done].
  destruct (start_time s) as [t0|]; [|done].
  destruct (Qle_bool 3 _); [done|]. by destruct (Qle_bool 2 _).
Qed.



(** ** Misuse of a station *)

(** C8. On a station that is in use, a confirmed start only shows the "already
    in use" warning and leaves the manager as it was.  On a station that is
    not in use, a confirmed end only shows the "not in use" warning and opens
    no bill, and adding a service only shows the "not active" warning; both
    leave the manager, and so the station's charges, as they were. *)
Theorem station_misuse_is_refused (st : manager) (ps_name : string) (s : session)
    (now : Q) (service now_hms : string) (confirm : bool) :
  sessions st !! ps_name = Some s →
  (active s = true →
     start_session ps_name true now st
       = ret [showwarning "Warning" (ps_name +:+ " is already in use")] tt st) ∧
  (active s = false →
     end_session ps_name true now st
       = ret [showwarning "Warning" (ps_name +:+ " is not in use")] None st ∧
     add_service ps_name service confirm now_hms st
       = ret [showwarning "Warning"
                (ps_name +:+ " is not active. Start a session first.")] tt st).
Proof.
  intros Hs. split; intros Ha.
  - unfold start_session. by rewrite Hs, Ha.
  - split.
    + unfold end_session. by rewrite Hs, Ha.
    + unfold add_service. by rewrite Hs, Ha.
Qed.

Lemma station_misuse_is_refused_witness :
  sessions OddCents.played !! "PS1" = Some OddCents.ps1 ∧
  start_session "PS1" true 60 OddCents.played
    = ret [showwarning "Warning" "PS1 is already in use"] tt OddCents.played ∧
  sessions OddCents.played !! "PS2" = Some idle_session ∧
  end_session "PS2" true 60 OddCents.played
    = ret [showwarning "Warning" "PS2 is not in use"] None OddCents.played ∧
  add_service "PS2" "tea" true "10:00:00" OddCents.played
    = ret [showwarning "Warning" "PS2 is not active. Start a session first."] tt
        OddCents.played.
Proof.
  assert (H1 : sessions OddCents.played !! "PS1" = Some OddCents.ps1)
    by (vm_compute; reflexivity).
  assert (H2 : sessions OddCents.played !! "PS2" = Some idle_session)
    by (vm_compute; reflexivity).
  pose proof (station_misuse_is_refused OddCents.played "PS1" _ 60 "tea" "10:00:00"
                true H1) as [Hstart _].
  pose proof (station_misuse_is_refused OddCents.played "PS2" _ 60 "tea" "10:00:00"
                true H2) as [_ Hidle].
  specialize (Hstart eq_refl). destruct (Hidle eq_refl) as [Hend Hadd].
  split; [exact H1|]. split; [exact Hstart|]. split; [exact H2|].
  split; [exact Hend|exact Hadd].
Defined.

(** ** Charges and later price changes *)

Section SettingsFrame.

Variable float : string → option Q.
Variable str : Q → string.

Lemma save_settings_charges (confirm : bool) (dump : option Py.exn) (st : manager) :
  charges (after (save_settings float confirm dump st)) = charges st.
Proof.
  unfold save_settings.
  destruct confirm; cbn [negb]; [|done].
  destruct (float (ps_rate_var st)); [|done].
  destruct (save_service_prices _ _ _) as [[?|] ?]; [done|].
  destruct (float (offer_2h_var st)); [|done].
  destruct (float (offer_3h_var st)); [|done].
  destruct dump; [done|]. by destruct (update_service_buttons _ _).
Qed.

Lemma reset_settings_charges (confirm : bool) (st : manager) :
  charges (after (reset_settings str confirm st)) = charges st.
Proof.
  unfold reset_settings.
  destruct confirm; cbn [negb]; [|done].
  destruct (reset_service_vars _ _ _) as [[?|] ?]; [done|].
  by destruct (update_service_buttons _ _).
Qed.

Lemma settings_step_charges (a : settings_action) (st : manager) :
  charges (settings_step float str a st) = charges st.
Proof.
  destruct a; cbn [settings_step]; try done.
  - apply save_settings_charges.
  - apply reset_settings_charges.
Qed.

Lemma settings_run_charges (l : list settings_action) (st : manager) :
  charges (settings_run float str l st) = charges st.
Proof.
  revert st. induction l as [|a l IH]; intros st; [done|].
  cbn. change (charges (settings_run float str l (settings_step float str a st)) = charges st).
  by rewrite IH, settings_step_charges.
Qed.

End SettingsFrame.

(** C9. A confirmed [add_service] on an active station appends a charge whose
    price is the configured price at that moment, and a confirmed
    [add_service_only] does the same for the order being entered.  Whatever is
    then typed, saved or reset on the settings tab, the stations, the order
    being entered and the pending orders are the same, charge for charge, so
    the price of the added charge and the services cost are the same. *)
Theorem charges_keep_their_price (float : string → option Q) (str : Q → string)
    (st : manager) (ps_name : string) (s : session) (service : string) (price : Q)
    (now_hms : string) (l : list settings_action) :
  sessions st !! ps_name = Some s →
  active s = true →
  service_prices (config st) !! service = Some price →
  let charge := ServiceEntry service price now_hms in
  let st1 := after (add_service ps_name service true now_hms st) in
  let st1' := after (add_service_only service true now_hms st) in
  let s1 := Session true (start_time s) (customer_name s) (services s ++ [charge]) in
  sessions st1 !! ps_name = Some s1 ∧
  services_only_list st1' = services_only_list st ++ [charge] ∧
  sessions (settings_run float str l st1) !! ps_name = Some s1 ∧
  services_only_list (settings_run float str l st1')
    = services_only_list st ++ [charge] ∧
  (∀ st0 : manager,
     charges (settings_run float str l st0) = charges st0 ∧
     ∀ name s0, sessions st0 !! name = Some s0 →
       ∃ s2, sessions (settings_run float str l st0) !! name = Some s2 ∧
             services_cost (services s2) = services_cost (services s0)).
Proof.
  intros Hs Ha Hp. cbn zeta.
  assert (H1 : sessions (after (add_service ps_name service true now_hms st)) !! ps_name
               = Some (Session true (start_time s) (customer_name s)
                         (services s ++ [ServiceEntry service price now_hms]))).
  { unfold add_service, service_price. rewrite Hs, Ha, Hp. cbn.
    by rewrite lookup_insert_eq. }
  assert (H1' : services_only_list (after (add_service_only service true now_hms st))
                = services_only_list st ++ [ServiceEntry service price now_hms]).
  { unfold add_service_only, service_price. by rewrite Hp. }
  assert (Hframe : ∀ st0, charges (settings_run float str l st0) = charges st0)
    by apply settings_run_charges.
  repeat split.
  - exact H1.
  - exact H1'.
  - pose proof (Hframe (after (add_service ps_name service true now_hms st))) as E.
    injection E as E _ _. by rewrite E.
  - pose proof (Hframe (after (add_service_only service true now_hms st))) as E.
    injection E as _ E _. by rewrite E.
  - apply Hframe.
  - intros name s0 H0. exists s0. split; [|done].
    pose proof (Hframe st0) as E. injection E as E _ _. by rewrite E.
Qed.

Lemma charges_keep_their_price_witness :
  sessions PriceChange.started !! "PS1" = Some PriceChange.ps1 ∧
  service_prices (config PriceChange.started) !! "coffee" = Some 2500 ∧
  service_prices
    (config (settings_run Decimal.float Decimal.str PriceChange.retype PriceChange.served))
    !! "coffee" = Some 9999 ∧
  sessions
    (settings_run Decimal.float Decimal.str PriceChange.retype
       (after (add_service "PS1" "coffee" true "10:00:00" PriceChange.started)))
    !! "PS1"
  = Some (Session true (start_time PriceChange.ps1) (customer_name PriceChange.ps1)
            (services PriceChange.ps1 ++ [ServiceEntry "coffee" 2500 "10:00:00"])).
Proof.
  assert (Hs : sessions PriceChange.started !! "PS1" = Some PriceChange.ps1)
    by (vm_compute; reflexivity).
  assert (Hp : service_prices (config PriceChange.started) !! "coffee" = Some 2500)
    by (vm_compute; reflexivity).
  split; [exact Hs|]. split; [exact Hp|]. split; [vm_compute; reflexivity|].
  pose proof (charges_keep_their_price Decimal.float Decimal.str PriceChange.started
                "PS1" PriceChange.ps1 "coffee" 2500 "10:00:00" PriceChange.retype
                Hs eq_refl Hp) as H.
  cbv zeta in H. destruct H as (_ & _ & H & _). exact H.
Defined.

(** ** The customer cell of a ledger row *)

(** The one row [save_pending_to_database] can append. *)
Lemma save_pending_to_database_row (str : Q → string) (read_row : list row → row → row)
    (b : services_bill) (confirm : bool) (date hms today : string)
    (read_excel to_excel reread : option Py.exn) (st : manager) (new_row : row) :
  db_file (after (save_pending_to_database str read_row b confirm date hms today
                    read_excel to_excel reread st))
    = read_sheet read_row (db_file st) ++ [new_row] →
  new_row =
    {| Date := date; Time := hms; PlayStation := "Services Only";
       Customer := customer (bill_order b); Duration_Hours := "00:00"; PS_Cost := 0;
       Services := order_services_str str (order_services (bill_order b));
       Service_Cost := Py.round2 (order_total (bill_order b));
       Total_Cost := Py.round2 (order_total (bill_order b)) |}.
Proof.
  pose proof (read_sheet_grows read_row (db_file st) new_row) as Hsame.
  unfold save_pending_to_database.
  destruct confirm; cbn [negb]; [|done].
  destruct read_excel; [done|].
  destruct to_excel; [done|].
  cbn. intros E. apply app_inv_head in E. by injection E as <-.
Qed.

(** C10. A row appended by saving a station bill has the station's name in its
    PlayStation cell and the literal "N/A" in its Customer cell.  A row
    appended by saving a pending order is the one that carries a customer
    name, under the station label "Services Only".  The row is appended to
    the rows of the sheet as pandas read them. *)
Theorem station_rows_have_no_customer (str : Q → string)
    (read_row : list row → row → row) (w : bill_window)
    (b : services_bill) (confirm : bool) (date hms today : string)
    (read_excel to_excel reread : option Py.exn) (st : manager) (new_row : row) :
  (db_file (after (save_bill_to_database read_row w confirm date hms today
                     read_excel to_excel reread st))
     = read_sheet read_row (db_file st) ++ [new_row] →
   Customer new_row = "N/A" ∧ PlayStation new_row = bill_ps_name w) ∧
  (db_file (after (save_pending_to_database str read_row b confirm date hms today
                     read_excel to_excel reread st))
     = read_sheet read_row (db_file st) ++ [new_row] →
   Customer new_row = customer (bill_order b) ∧ PlayStation new_row = "Services Only").
Proof.
  split; intros H.
  - by apply save_bill_to_database_row in H as (s & _ & ->).
  - by apply save_pending_to_database_row in H as ->.
Qed.

Lemma station_rows_have_no_customer_witness :
  db_file (after (save_bill_to_database Pandas.read_row OddCents.window true
                    "2026-01-05" "11:00:05" "2026-01-05"
                    None None None (after OddCents.billed)))
    = read_sheet Pandas.read_row (db_file (after OddCents.billed))
      ++ [OddCents.new_row] ∧
  Customer OddCents.new_row = "N/A" ∧
  PlayStation OddCents.new_row = bill_ps_name OddCents.window.
Proof.
  assert (H : db_file (after (save_bill_to_database Pandas.read_row OddCents.window true
                                "2026-01-05" "11:00:05" "2026-01-05"
                                None None None (after OddCents.billed)))
              = read_sheet Pandas.read_row (db_file (after OddCents.billed))
                ++ [OddCents.new_row])
    by (vm_compute; reflexivity).
  split; [exact H|].
  pose proof (station_rows_have_no_customer Decimal.str Pandas.read_row OddCents.window
                (ServicesBill AlexOrder.order 0) true "2026-01-05" "11:00:05" "2026-01-05"
                None None None (after OddCents.billed) OddCents.new_row) as [Hstation _].
  exact (Hstation H).
Defined.

(** * More properties of the handlers *)

Ltac break_handler :=
  repeat match goal with
         | |- context [match ?x with _ => _ end] => destruct x eqn:?
         | |- context [if ?b then _ else _] => destruct b eqn:?
         end.

Lemma del_inr {A} (l l' : list A) (i : nat) :
  Py.del l i = inr l' → (i < length l)%nat ∧ l' = delete i l.
Proof.
  unfold Py.del. destruct (i <? length l)%nat eqn:E; [|done].
  intros [= <-]. split; [|done]. by apply Nat.ltb_lt.
Qed.

Lemma idle_session_ok : session_ok idle_session.
Proof. split; [done|]. by intros _. Qed.

Lemma initial_sessions_ok (str : Q → string) : sessions_ok (initial str).
Proof.
  unfold sessions_ok. cbn [sessions initial].
  repeat apply map_Forall_insert_2; try apply idle_session_ok.
  apply map_Forall_empty.
Qed.

(** ** What the handlers keep true *)

Section Invariants.

Variable float : string → option Q.
Variable str : Q → string.
Variable read_row : list row → row → row.

Lemma settings_step_frame (a : settings_action) (st : manager) :
  sessions (settings_step float str a st) = sessions st ∧
  pending_orders (settings_step float str a st) = pending_orders st ∧
  db_file (settings_step float str a st) = db_file st.
Proof.
  pose proof (settings_step_charges float str a st) as E.
  injection E as E1 _ E3. split; [done|]. split; [done|].
  destruct a; cbn [settings_step]; try done.
  - unfold save_settings. break_handler; reflexivity.
  - unfold reset_settings. break_handler; reflexivity.
Qed.

Lemma step_sessions_ok (a : action) (st : manager) :
  sessions_ok st → sessions_ok (step float str read_row a st).
Proof.
  unfold sessions_ok. intros Hok.
  destruct a; cbn [step].
  - unfold start_session. break_handler; cbn; try done.
    apply map_Forall_insert_2; [|done]. split; cbn; [eauto|done].
  - unfold add_service. break_handler; cbn; try done.
    apply map_Forall_insert_2; [|done].
    match goal with H : sessions st !! _ = Some ?s |- _ =>
      destruct (Hok _ _ H) as [Ha Hi] end.
    split; cbn; [done|]. intros Hf. rewrite Hf in *. done.
  - unfold remove_service. break_handler; cbn; try done.
    apply map_Forall_insert_2; [|done].
    match goal with H : sessions st !! _ = Some ?s |- _ =>
      destruct (Hok _ _ H) as [Ha Hi] end.
    split; cbn; [done|]. intros Hf. destruct (Hi Hf) as [? Hs].
    split; [done|]. rewrite Hs in *. done.
  - by rewrite end_session_sessions.
  - done.
  - unfold save_bill_to_database. break_handler; cbn; try done;
      (apply map_Forall_insert_2; [apply idle_session_ok|done]).
  - cbn. apply map_Forall_insert_2; [apply idle_session_ok|done].
  - done.
  - unfold add_service_only. break_handler; cbn; done.
  - unfold remove_service_only. break_handler; cbn; done.
  - unfold clear_current_order. break_handler; cbn; done.
  - unfold add_to_pending_orders. break_handler; cbn; done.
  - unfold generate_bill_for_pending. break_handler; cbn; done.
  - unfold save_pending_to_database. break_handler; cbn; done.
  - unfold remove_pending_order. break_handler; cbn; done.
  - unfold add_more_services_to_pending. break_handler; cbn; done.
  - unfold delete_selected_row. break_handler; cbn; done.
  - by rewrite (proj1 (settings_step_frame a st)).
Qed.

Lemma step_orders_ok (a : action) (st : manager) :
  orders_ok st → orders_ok (step float str read_row a st).
Proof.
  unfold orders_ok. intros Hok.
  destruct a; cbn [step]; try done.
  - unfold start_session. break_handler; cbn; done.
  - unfold add_service. break_handler; cbn; done.
  - unfold remove_service. break_handler; cbn; done.
  - unfold end_session, show_bill. break_handler; cbn; done.
  - unfold save_bill_to_database. break_handler; cbn; done.
  - unfold add_service_only. break_handler; cbn; done.
  - unfold remove_service_only. break_handler; cbn; done.
  - unfold clear_current_order. break_handler; cbn; done.
  - unfold add_to_pending_orders.
    destruct (services_only_list st) as [|e l] eqn:El; [done|].
    destruct (String.eqb _ _) eqn:Ec; [done|].
    destruct confirm; [|done]. cbn.
    apply Forall_app. split; [done|]. apply Forall_singleton.
    split; [|split]; cbn; [|done|done].
    by apply String.eqb_neq.
  - unfold generate_bill_for_pending. break_handler; cbn; done.
  - by rewrite save_pending_keeps_pending_orders.
  - unfold remove_pending_order. break_handler; cbn; try done.
    match goal with H : Py.del _ _ = inr _ |- _ => apply del_inr in H as [_ ->] end.
    by apply Forall_delete.
  - unfold add_more_services_to_pending. break_handler; cbn; try done.
    match goal with H : Py.del _ _ = inr _ |- _ => apply del_inr in H as [_ ->] end.
    by apply Forall_delete.
  - unfold delete_selected_row. break_handler; cbn; done.
  - by rewrite (proj1 (proj2 (settings_step_frame a st))).
Qed.

Lemma run_invariant (P : manager → Prop) (l : list action) (st : manager) :
  (∀ a st, P st → P (step float str read_row a st)) → P st → P (run float str read_row l st).
Proof.
  intros Hstep. revert st. induction l as [|a l IH]; intros st Hst; [done|].
  cbn. apply IH. by apply Hstep.
Qed.

End Invariants.

(** X1. From a state in which every station is either in use with a start
    instant or idle with no start instant and no charges (the state at
    start-up is one), every run of user actions leads to such a state again:
    whatever was done before, a station in use has the start instant that
    [end_session] subtracts from the clock. *)
Theorem stations_stay_well_formed (float : string → option Q) (str : Q → string)
    (read_row : list row → row → row) (l : list action) (st0 : manager)
    (ps_name : string) (s : session) :
  sessions_ok st0 →
  sessions (run float str read_row l st0) !! ps_name = Some s →
  session_ok s.
Proof.
  intros H0 Hs.
  assert (Hok : sessions_ok (run float str read_row l st0)).
  { apply run_invariant; [apply step_sessions_ok | exact H0]. }
  exact (Hok _ _ Hs).
Qed.

Lemma stations_stay_well_formed_witness :
  sessions_ok (initial Decimal.str) ∧
  sessions (run Decimal.float Decimal.str Pandas.read_row playing_actions
              (initial Decimal.str)) !! "PS1"
    = Some (Session true (Some 0) "" [ServiceEntry "coffee" 2500 "10:00:00"]) ∧
  session_ok (Session true (Some 0) "" [ServiceEntry "coffee" 2500 "10:00:00"]).
Proof.
  pose proof (initial_sessions_ok Decimal.str) as H0.
  assert (Hs : sessions (run Decimal.float Decimal.str Pandas.read_row playing_actions
                           (initial Decimal.str)) !! "PS1"
               = Some (Session true (Some 0) "" [ServiceEntry "coffee" 2500 "10:00:00"]))
    by (vm_compute; reflexivity).
  split; [exact H0|]. split; [exact Hs|].
  exact (stations_stay_well_formed Decimal.float Decimal.str Pandas.read_row
           playing_actions (initial Decimal.str) "PS1" _ H0 Hs).
Defined.

(** X2. From a state whose pending orders each name a customer, hold at least
    one charge and carry the sum of their charges as total (an empty list at
    start-up), every run of user actions leads to a pending list with the
    same three properties. *)
Theorem pending_orders_stay_well_formed (float : string → option Q)
    (str : Q → string) (read_row : list row → row → row)
    (l : list action) (st0 : manager) :
  Forall order_ok (pending_orders st0) →
  Forall order_ok (pending_orders (run float str read_row l st0)).
Proof. intros H0. apply run_invariant; [apply step_orders_ok | exact H0]. Qed.

Lemma pending_orders_stay_well_formed_witness :
  Forall order_ok (pending_orders (initial Decimal.str)) ∧
  pending_orders (run Decimal.float Decimal.str Pandas.read_row alex_actions
                    (initial Decimal.str))
    = [AlexOrder.order] ∧
  Forall order_ok
    (pending_orders (run Decimal.float Decimal.str Pandas.read_row alex_actions
                       (initial Decimal.str))).
Proof.
  assert (H0 : Forall order_ok (pending_orders (initial Decimal.str)))
    by apply Forall_nil_2.
  split; [exact H0|]. split; [vm_compute; reflexivity|].
  exact (pending_orders_stay_well_formed Decimal.float Decimal.str Pandas.read_row
           alex_actions (initial Decimal.str) H0).
Defined.

(** ** Stations do not interfere *)

(** X4. An action that is not addressed to a station leaves that station's
    session as it was: starting, serving, billing or closing one station, and
    everything done on the services-only panel, the pending list, the database
    tab and the settings tab, changes no other station. *)
Theorem other_stations_untouched (float : string → option Q) (str : Q → string)
    (read_row : list row → row → row) (a : action) (st : manager) (other : string) :
  station_of a ≠ Some other →
  sessions (step float str read_row a st) !! other = sessions st !! other.
Proof.
  intros Hne.
  destruct a; cbn [step station_of] in *.
  - unfold start_session. break_handler; cbn; try done.
    apply lookup_insert_ne. congruence.
  - unfold add_service. break_handler; cbn; try done.
    apply lookup_insert_ne. congruence.
  - unfold remove_service. break_handler; cbn; try done.
    apply lookup_insert_ne. congruence.
  - by rewrite end_session_sessions.
  - done.
  - unfold save_bill_to_database. break_handler; cbn; try done;
      (apply lookup_insert_ne; congruence).
  - cbn. apply lookup_insert_ne. congruence.
  - done.
  - unfold add_service_only. break_handler; cbn; done.
  - unfold remove_service_only. break_handler; cbn; done.
  - unfold clear_current_order. break_handler; cbn; done.
  - unfold add_to_pending_orders. break_handler; cbn; done.
  - unfold generate_bill_for_pending. break_handler; cbn; done.
  - unfold save_pending_to_database. break_handler; cbn; done.
  - unfold remove_pending_order. break_handler; cbn; done.
  - unfold add_more_services_to_pending. break_handler; cbn; done.
  - unfold delete_selected_row. break_handler; cbn; done.
  - pose proof (settings_step_charges float str a st) as E.
    injection E as E _ _. by rewrite E.
Qed.

Lemma other_stations_untouched_witness :
  station_of (AddService "PS1" "tea" true "10:30:00") ≠ Some "PS2" ∧
  sessions (step Decimal.float Decimal.str Pandas.read_row
              (AddService "PS1" "tea" true "10:30:00") OddCents.played) !! "PS2"
  = sessions OddCents.played !! "PS2".
Proof.
  assert (H : station_of (AddService "PS1" "tea" true "10:30:00") ≠ Some "PS2")
    by (cbn; congruence).
  split; [exact H|].
  exact (other_stations_untouched Decimal.float Decimal.str Pandas.read_row _
           OddCents.played "PS2" H).
Defined.

(** ** The bill and the running cost *)






(** ** Taking a charge back *)

(** X7. On an active station, adding a service that has a price and then
    removing the last row of the station's service list (both confirmed)
    gives back the manager as it was. *)
Theorem add_then_remove_service (st : manager) (ps_name : string) (s : session)
    (service : string) (price : Q) (now_hms : string) :
  sessions st !! ps_name = Some s →
  active s = true →
  service_prices (config st) !! service = Some price →
  let st1 := after (add_service ps_name service true now_hms st) in
  let r := remove_service ps_name (Some (length (services s))) true st1 in
  ended r = Returned tt ∧ after r = st.
Proof.
  intros Hs Ha Hp. cbn zeta.
  unfold add_service, service_price. rewrite Hs, Ha, Hp. cbn [negb after ret].
  unfold remove_service. cbn [sessions set_sessions].
  rewrite lookup_insert_eq. cbn [services].
  unfold Py.getitem, Py.del.
  rewrite lookup_app_r, Nat.sub_diag by lia. cbn [lookup list_lookup].
  rewrite length_app. cbn [length].
  replace (length (services s) <? length (services s) + 1)%nat with true
    by (symmetry; apply Nat.ltb_lt; lia).
  rewrite delete_middle, app_nil_r. cbn.
  split; [done|].
  rewrite insert_insert_eq.
  destruct s as [a t c l]. cbn in *. subst a.
  rewrite (insert_id _ _ _ Hs). by destruct st.
Qed.

Lemma add_then_remove_service_witness :
  sessions OddCents.played !! "PS1" = Some OddCents.ps1 ∧
  after (remove_service "PS1" (Some (length (services OddCents.ps1))) true
           (after (add_service "PS1" "tea" true "10:30:00" OddCents.played)))
  = OddCents.played.
Proof.
  assert (Hs : sessions OddCents.played !! "PS1" = Some OddCents.ps1)
    by (vm_compute; reflexivity).
  assert (Hp : service_prices (config OddCents.played) !! "tea" = Some 2000)
    by (vm_compute; reflexivity).
  split; [exact Hs|].
  pose proof (add_then_remove_service OddCents.played "PS1" OddCents.ps1 "tea" _
                "10:30:00" Hs eq_refl Hp) as H.
  cbv zeta in H. destruct H as [_ H]. exact H.
Defined.

(** ** A whole session *)



(** ** A save that fails *)

(** X9. A station bill that is not confirmed, or whose sheet cannot be read or
    written, or whose station is unknown, changes nothing: the manager is
    returned as it was, with no box when unconfirmed and otherwise with the
    error box "Failed to save to database: ..." carrying the exception's
    text, so the session is still running and can be saved again. *)
Theorem save_bill_to_database_failure (read_row : list row → row → row)
    (w : bill_window) (confirm : bool)
    (date hms today : string) (read_excel to_excel reread : option Py.exn)
    (st : manager) :
  let r := save_bill_to_database read_row w confirm date hms today
             read_excel to_excel reread st in
  (confirm = false → r = ret [] tt st) ∧
  (∀ e, confirm = true → read_excel = Some e →
     r = ret [showerror "Error" ("Failed to save to database: " +:+ Py.str_exn e)] tt st) ∧
  (∀ e s, confirm = true → read_excel = None → sessions st !! bill_ps_name w = Some s →
     to_excel = Some e →
     r = ret [showerror "Error" ("Failed to save to database: " +:+ Py.str_exn e)] tt st) ∧
  (confirm = true → read_excel = None → sessions st !! bill_ps_name w = None →
     r = ret [showerror "Error"
                ("Failed to save to database: '" +:+ bill_ps_name w +:+ "'")] tt st).
Proof.
  cbn zeta. unfold save_bill_to_database. repeat split.
  - by intros ->.
  - by intros e -> ->.
  - intros e s -> -> Hs ->. by rewrite Hs.
  - intros -> -> Hs. by rewrite Hs.
Qed.

(** ** Queueing an order *)

(** X10. [add_to_pending_orders] checks the order before it asks: with no
    charge entered it only warns "No services in current order"; with charges
    but a customer name that is empty once stripped it only warns "Please
    enter customer name"; both leave the manager as it was.  Otherwise, once
    confirmed, it appends the order (stripped name, the charges, their sum,
    the time) at the end of the pending list and empties the entry form. *)
Theorem add_to_pending_orders_checks (confirm : bool) (now_hms : string)
    (st : manager) :
  let r := add_to_pending_orders confirm now_hms st in
  (services_only_list st = [] →
     r = ret [showwarning "Warning" "No services in current order"] tt st) ∧
  (services_only_list st ≠ [] → PyStr.strip (services_customer_var st) = "" →
     r = ret [showwarning "Warning" "Please enter customer name"] tt st) ∧
  (services_only_list st ≠ [] → PyStr.strip (services_customer_var st) ≠ "" →
     confirm = true →
     pending_orders (after r) =
       pending_orders st ++
       [ {| customer := PyStr.strip (services_customer_var st);
            order_services := services_only_list st;
            order_total := services_cost (services_only_list st);
            time_added := now_hms |} ] ∧
     services_only_list (after r) = [] ∧
     services_customer_var (after r) = "").
Proof.
  cbn zeta. unfold add_to_pending_orders. split; [|split].
  - by intros ->.
  - intros Hne Hc. destruct (services_only_list st); [done|]. by rewrite Hc.
  - intros Hne Hc ->. destruct (services_only_list st); [done|].
    apply String.eqb_neq in Hc. by rewrite Hc.
Qed.

(** ** Reopening an order *)

(** X11. "Add More Services" on a pending order takes it out of the list and
    puts its charges and customer name in the entry form, replacing what the
    form held; queueing again (confirmed) appends it at the end of the list,
    with the same customer and charges, the sum of the charges as total, and
    the new time. *)
Theorem reopen_then_queue_again (st : manager) (i : nat) (o : pending_order)
    (now_hms : string) :
  pending_orders st !! i = Some o →
  order_services o ≠ [] →
  PyStr.strip (customer o) = customer o →
  customer o ≠ "" →
  let reopened := after (add_more_services_to_pending (Some i) st) in
  let queued := after (add_to_pending_orders true now_hms reopened) in
  services_only_list reopened = order_services o ∧
  services_customer_var reopened = customer o ∧
  pending_orders reopened = delete i (pending_orders st) ∧
  pending_orders queued =
    delete i (pending_orders st) ++
    [ {| customer := customer o; order_services := order_services o;
         order_total := services_cost (order_services o);
         time_added := now_hms |} ] ∧
  services_only_list queued = [].
Proof.
  intros Hi Hne Hstrip Hc. cbn zeta.
  assert (Hlt : (i < length (pending_orders st))%nat) by (by eapply lookup_lt_Some).
  unfold add_more_services_to_pending, Py.getitem, Py.del. rewrite Hi.
  cbn [pending_orders set_services_customer_var set_services_only_list].
  apply Nat.ltb_lt in Hlt. rewrite Hlt. cbn [after ret].
  unfold add_to_pending_orders.
  cbn [services_only_list services_customer_var set_pending_orders
       set_services_customer_var set_services_only_list pending_orders].
  destruct (order_services o) as [|e l] eqn:El; [done|].
  rewrite Hstrip. apply String.eqb_neq in Hc. rewrite Hc. by cbn.
Qed.

Lemma reopen_then_queue_again_witness :
  pending_orders AlexOrder.queued !! 0%nat = Some AlexOrder.order ∧
  pending_orders
    (after (add_to_pending_orders true "10:20:00"
              (after (add_more_services_to_pending (Some 0%nat) AlexOrder.queued))))
  = delete 0%nat (pending_orders AlexOrder.queued) ++
    [ {| customer := customer AlexOrder.order;
         order_services := order_services AlexOrder.order;
         order_total := services_cost (order_services AlexOrder.order);
         time_added := "10:20:00" |} ].
Proof.
  assert (Hi : pending_orders AlexOrder.queued !! 0%nat = Some AlexOrder.order)
    by (vm_compute; reflexivity).
  split; [exact Hi|].
  assert (Hne : order_services AlexOrder.order ≠ []) by (cbn; congruence).
  assert (Hstrip : PyStr.strip (customer AlexOrder.order) = customer AlexOrder.order)
    by (vm_compute; reflexivity).
  assert (Hc : customer AlexOrder.order ≠ "") by (cbn; congruence).
  pose proof (reopen_then_queue_again AlexOrder.queued 0 AlexOrder.order "10:20:00"
                Hi Hne Hstrip Hc) as H.
  cbv zeta in H. destruct H as (_ & _ & _ & H & _). exact H.
Defined.

(** ** Saving a pending bill again *)

(** X12. Each confirmed save of a pending bill writes the sheet back as the
    rows pandas read from it followed by the bill's row: saving the same bill
    twice leaves two rows for the one order at the end of the ledger, the
    first of them as it was read back, the second save ends in the same error
    box as the first, and the order is still in the pending list. *)
Theorem save_pending_again_adds_a_row (str : Q → string)
    (read_row : list row → row → row) (b : services_bill)
    (date1 hms1 today1 date2 hms2 today2 : string) (reread1 reread2 : option Py.exn)
    (st : manager) :
  let row_at (date hms : string) :=
    {| Date := date; Time := hms; PlayStation := "Services Only";
       Customer := customer (bill_order b); Duration_Hours := "00:00"; PS_Cost := 0;
       Services := order_services_str str (order_services (bill_order b));
       Service_Cost := Py.round2 (order_total (bill_order b));
       Total_Cost := Py.round2 (order_total (bill_order b)) |} in
  let once :=
    save_pending_to_database str read_row b true date1 hms1 today1
      None None reread1 st in
  let twice :=
    save_pending_to_database str read_row b true date2 hms2 today2
      None None reread2 (after once) in
  db_file (after once) = read_sheet read_row (db_file st) ++ [row_at date1 hms1] ∧
  db_file (after twice)
    = read_sheet read_row (db_file (after once)) ++ [row_at date2 hms2] ∧
  length (db_file (after twice)) = (length (db_file st) + 2)%nat ∧
  pending_orders (after twice) = pending_orders st ∧
  shown twice =
    [showerror "Error" "Failed to save order: name 'item_index' is not defined"].
Proof.
  cbn zeta. unfold save_pending_to_database. cbn.
  split; [done|]. split; [done|]. split; [|done].
  unfold read_sheet. rewrite length_app, length_fmap, length_app, length_fmap. cbn. lia.
Qed.

(** ** Deleting a ledger row *)

(** X13. A confirmed delete reads the sheet, drops the row at the selected
    position, whatever rows the view shows, and writes the rest back: the rows
    read before it and after it stay, in order, and nothing else changes.  A
    position past the last row changes nothing and shows pandas' index error
    in the box "Failed to delete record: ...". *)
Theorem delete_selected_row_by_position (read_row : list row → row → row) (i : nat)
    (today : string) (reread : option Py.exn) (st : manager) :
  let r := delete_selected_row read_row (Some i) true today None None reread st in
  let df := read_sheet read_row (db_file st) in
  ((i < length (db_file st))%nat →
     db_file (after r) = take i df ++ drop (S i) df ∧
     length (db_file (after r)) = (length (db_file st) - 1)%nat ∧
     after r = set_db_file (db_file (after r)) st) ∧
  ((length (db_file st) ≤ i)%nat →
     after r = st ∧
     shown r =
       [showerror "Error"
          ("Failed to delete record: index " +:+ pretty i +:+
           " is out of bounds for axis 0 with size " +:+ pretty (length (db_file st)))]).
Proof.
  cbn zeta. unfold delete_selected_row, drop_row. cbn [negb].
  rewrite read_sheet_length. split.
  - intros Hlt. pose proof Hlt as Hb. apply Nat.ltb_lt in Hb. rewrite Hb. cbn.
    rewrite delete_take_drop. split; [done|]. split; [|done].
    rewrite length_app, length_take, length_drop, read_sheet_length. lia.
  - intros Hge. pose proof Hge as Hb. apply Nat.ltb_ge in Hb. rewrite Hb. done.
Qed.

(** ** A settings form that is accepted *)

Section SaveAccepted.

Variable float : string → option Q.

(** The loop writes, for each entry that parses, its number under its service,
    and leaves the services without an entry alone. *)
Lemma save_service_prices_lookup (vars : list (string * string))
    (prices prices' : gmap string Q) :
  save_service_prices float vars prices = (None, prices') →
  NoDup vars.*1 →
  (∀ service text, (service, text) ∈ vars → prices' !! service = float text) ∧
  (∀ service, service ∉ vars.*1 → prices' !! service = prices !! service).
Proof.
  revert prices. induction vars as [|[service0 text0] vars IH]; intros prices Hrun Hnd.
  - cbn in Hrun. injection Hrun as <-. split; [|done].
    intros ?? Hin. by apply elem_of_nil in Hin.
  - cbn in Hrun, Hnd. apply NoDup_cons in Hnd as [Hnotin Hnd].
    destruct (float text0) as [v|] eqn:Hf; [|done].
    destruct (IH _ Hrun Hnd) as [Hin Hout]. split.
    + intros service text Hel. apply elem_of_cons in Hel as [[= -> ->]|Hel].
      * by rewrite (Hout _ Hnotin), lookup_insert_eq.
      * by apply Hin.
    + intros service Hel. cbn in Hel. apply not_elem_of_cons in Hel as [Hne Hel].
      rewrite (Hout _ Hel). by apply lookup_insert_ne.
Qed.

(** Every service with an entry has a price once the loop is through. *)
Lemma save_service_prices_keys (vars : list (string * string))
    (prices prices' : gmap string Q) :
  save_service_prices float vars prices = (None, prices') →
  (∀ service, is_Some (prices !! service) → is_Some (prices' !! service)) ∧
  (∀ p, p ∈ vars → is_Some (prices' !! p.1)).
Proof.
  revert prices. induction vars as [|[service0 text0] vars IH]; intros prices Hrun.
  - cbn in Hrun. injection Hrun as <-. split; [done|].
    intros p Hp. by apply elem_of_nil in Hp.
  - cbn in Hrun. destruct (float text0) as [v|] eqn:Hf; [|done].
    destruct (IH _ Hrun) as [Hmono Hkeys].
    assert (Hins : ∀ service, is_Some (prices !! service) →
                     is_Some (<[service0:=v]> prices !! service)).
    { intros service Hs. destruct (decide (service0 = service)) as [->|Hne].
      - rewrite lookup_insert_eq. eauto.
      - by rewrite lookup_insert_ne. }
    split; [by auto|].
    intros p Hp. apply elem_of_cons in Hp as [->|Hp]; [|by apply Hkeys].
    apply Hmono. cbn. rewrite lookup_insert_eq. eauto.
Qed.

Lemma update_service_buttons_priced (buttons : list (string * string)) (c : config_t) :
  (∀ p, p ∈ buttons → is_Some (service_prices c !! p.1)) →
  update_service_buttons buttons c = None.
Proof.
  induction buttons as [|[service text] buttons IH]; intros Hall; [done|].
  cbn. unfold service_price.
  destruct (Hall (service, text)) as [price Hp]; [by left|].
  cbn in Hp. rewrite Hp. apply IH. intros p Hel. apply Hall. by right.
Qed.

End SaveAccepted.

(** X14. When every rate entry of the settings form reads as a number (and no
    service has two entries), a confirmed save that can write the file shows
    the success box, sets the station rate, the offers switch and both offer
    rates from the form, sets the price of each service to the number in its
    entry, leaves the prices of services without an entry alone, records the
    new configuration as the content of the settings file, and changes nothing
    else.  Saving the same form again changes nothing more. *)
Theorem save_settings_accepted (float : string → option Q) (st : manager)
    (rate rate2 rate3 : Q) :
  float (ps_rate_var st) = Some rate →
  forallb (λ p, parses float p.2) (service_vars st) = true →
  float (offer_2h_var st) = Some rate2 →
  float (offer_3h_var st) = Some rate3 →
  NoDup (service_vars st).*1 →
  let r := save_settings float true None st in
  let saved := config (after r) in
  shown r = [showinfo "Success" "Settings saved successfully!"] ∧
  after r = set_config_file (Some saved) (set_config saved st) ∧
  playstation_rate saved = rate ∧
  offers saved = Offers (offers_enabled_var st) rate2 rate3 ∧
  (∀ service text, (service, text) ∈ service_vars st →
     service_prices saved !! service = float text) ∧
  (∀ service, service ∉ (service_vars st).*1 →
     service_prices saved !! service = service_prices (config st) !! service) ∧
  after (save_settings float true None (after r)) = after r.
Proof.
  intros Hr Hall H2 H3 Hnd. cbn zeta.
  destruct (save_service_prices float (service_vars st) (service_prices (config st)))
    as [err prices] eqn:Hloop.
  assert (Herr : err = None).
  { pose proof (proj2 (save_service_prices_ok float (service_vars st)
                         (service_prices (config st))) Hall) as Hok.
    by rewrite Hloop in Hok. }
  subst err.
  destruct (save_service_prices_lookup float _ _ _ Hloop Hnd) as [Hin Hout].
  assert (Hbtn : update_service_buttons (service_vars st)
                   (Config rate prices (Offers (offers_enabled_var st) rate2 rate3))
                 = None).
  { apply update_service_buttons_priced. cbn [service_prices].
    apply (save_service_prices_keys float _ _ _ Hloop). }
  assert (E : save_settings float true None st
              = ret [showinfo "Success" "Settings saved successfully!"] tt
                  (set_config_file
                     (Some (Config rate prices (Offers (offers_enabled_var st) rate2 rate3)))
                     (set_config
                        (Config rate prices (Offers (offers_enabled_var st) rate2 rate3))
                        st))).
  { unfold save_settings. rewrite Hr. cbn [negb playstation_rate service_prices offers].
    rewrite Hloop, H2, H3. cbn [enabled rate_2_hour rate_3_hour]. by rewrite Hbtn. }
  rewrite E. cbn [shown after ret config set_config set_config_file
                  playstation_rate offers service_prices].
  split; [done|]. split; [done|]. split; [done|]. split; [done|].
  split; [exact Hin|]. split; [exact Hout|].
  assert (Hloop' : save_service_prices float (service_vars st) prices = (None, prices)).
  { destruct (save_service_prices float (service_vars st) prices) as [err prices'] eqn:E'.
    assert (Herr : err = None).
    { pose proof (proj2 (save_service_prices_ok float (service_vars st) prices) Hall)
        as Hok.
      by rewrite E' in Hok. }
    subst err. f_equal.
    destruct (save_service_prices_lookup float _ _ _ E' Hnd) as [Hin' Hout'].
    apply map_eq. intros service.
    destruct (decide (service ∈ (service_vars st).*1)) as [Hel|Hel].
    - apply list_elem_of_fmap in Hel as [[s t] [-> Hel]]. cbn.
      by rewrite (Hin' _ _ Hel), (Hin _ _ Hel).
    - by apply Hout'. }
  unfold save_settings.
  cbn [negb ps_rate_var service_vars offer_2h_var offer_3h_var offers_enabled_var
       config set_config set_config_file playstation_rate service_prices offers
       enabled rate_2_hour rate_3_hour].
  rewrite Hr, Hloop', H2, H3. cbn [playstation_rate service_prices offers enabled
    rate_2_hour rate_3_hour]. by rewrite Hbtn.
Qed.

Lemma save_settings_accepted_witness :
  Decimal.float
    (ps_rate_var (with_entries "7000" "2500.5" "5000" "2000" "5000" "5500" "4666"))
  = Some 7000 ∧
  playstation_rate
    (config (after (save_settings Decimal.float true None
                      (with_entries "7000" "2500.5" "5000" "2000" "5000" "5500" "4666"))))
  = 7000 ∧
  after (save_settings Decimal.float true None
           (after (save_settings Decimal.float true None
                     (with_entries "7000" "2500.5" "5000" "2000" "5000" "5500" "4666"))))
  = after (save_settings Decimal.float true None
             (with_entries "7000" "2500.5" "5000" "2000" "5000" "5500" "4666")).
Proof.
  assert (Hr : Decimal.float
                 (ps_rate_var
                    (with_entries "7000" "2500.5" "5000" "2000" "5000" "5500" "4666"))
               = Some 7000) by (vm_compute; reflexivity).
  split; [exact Hr|].
  pose proof (save_settings_accepted Decimal.float
                (with_entries "7000" "2500.5" "5000" "2000" "5000" "5500" "4666")
                7000 5500 4666 Hr) as H.
  cbv zeta in H.
  destruct H as (_ & _ & Hrate & _ & _ & _ & Hagain).
  - vm_compute. reflexivity.
  - vm_compute. reflexivity.
  - vm_compute. reflexivity.
  - apply (bool_decide_unpack _). vm_compute. reflexivity.
  - split; [exact Hrate|exact Hagain].
Defined.

(** ** Resetting the settings *)

Lemma reset_service_vars_ok (str : Q → string) (vars : list (string * string))
    (c : config_t) :
  (∀ p, p ∈ vars → is_Some (service_prices c !! p.1)) →
  reset_service_vars str vars c
  = (None,
     (λ p, (p.1, match service_prices c !! p.1 with
                 | Some price => str price
                 | None => p.2
                 end)) <$> vars).
Proof.
  induction vars as [|[service text] vars IH]; intros Hall; [done|].
  cbn. unfold service_price.
  destruct (Hall (service, text)) as [price Hp]; [by left|].
  cbn [fst] in Hp. cbn [fst snd]. rewrite Hp.
  rewrite IH; [done|]. intros p Hel. apply Hall. by right.
Qed.

(** X15. A confirmed reset puts the built-in prices in [self.config] but does
    not write the settings file, which keeps what was last saved.  When every
    service of the form has a built-in price, the reset ends with the success
    box and fills the form with the built-in values; nothing else changes. *)
Theorem reset_settings_is_not_saved (str : Q → string) (st : manager) :
  let r := reset_settings str true st in
  config (after r) = default_config ∧
  config_file (after r) = config_file st ∧
  ((∀ p, p ∈ service_vars st → is_Some (service_prices default_config !! p.1)) →
     r = ret [showinfo "Success" "Settings reset to default values!"] tt
           (set_settings_vars (str 6000)
              ((λ p, (p.1, match service_prices default_config !! p.1 with
                           | Some price => str price
                           | None => p.2
                           end)) <$> service_vars st)
              true (str 5000) (str 4666) (set_config default_config st))).
Proof.
  cbn zeta. unfold reset_settings. cbn [negb].
  split; [|split].
  - destruct (reset_service_vars _ _ _) as [[e|] vars]; [done|].
    by destruct (update_service_buttons _ _).
  - destruct (reset_service_vars _ _ _) as [[e|] vars]; [done|].
    by destruct (update_service_buttons _ _).
  - intros Hall. rewrite (reset_service_vars_ok _ _ _ Hall).
    by rewrite (update_service_buttons_priced _ _ Hall).
Qed.

(** ** The settings file read back *)

(** X16. Loading at start-up a settings record with the three fields and the
    shape of [self.config] gives exactly that record as the configuration:
    nothing of the built-in prices is left. *)
Theorem load_config_of_saved_config (c : config_t) :
  ConfigFile.startup_config (ConfigFile.Loaded (ConfigFile.of_config c))
  = ConfigFile.of_config c.
Proof.
  unfold ConfigFile.startup_config, ConfigFile.load_config. cbn [fst].
  apply map_eq. intros field.
  rewrite lookup_union.
  unfold ConfigFile.init_config, ConfigFile.of_config.
  destruct (decide (field = "playstation_rate")) as [->|H1];
    [by rewrite !lookup_insert_eq|].
  rewrite !(lookup_insert_ne _ "playstation_rate") by done.
  destruct (decide (field = "services")) as [->|H2];
    [by rewrite !lookup_insert_eq|].
  rewrite !(lookup_insert_ne _ "services") by done.
  destruct (decide (field = "offers")) as [->|H3];
    [by rewrite !lookup_insert_eq|].
  rewrite !(lookup_insert_ne _ "offers") by done.
  by rewrite lookup_empty.
Qed.

(** ** The duration cell *)

Lemma int_inject_Z (z : Z) : Py.int (inject_Z z) = z.
Proof. unfold Py.int. cbn. apply Z.quot_1_r. Qed.

(** X17. The duration cell shows whole hours and whole minutes, cut off, not
    rounded: a duration of at least [h] hours and [m] minutes and less than
    [h] hours and [m + 1] minutes, with [m] from 0 to 59, is formatted as [h]
    and [m], each with at least two digits. *)
Theorem format_duration_truncates (h m : Z) (duration : Q) :
  (0 ≤ m < 60)%Z →
  inject_Z (3600 * h + 60 * m) <= duration →
  duration < inject_Z (3600 * h + 60 * (m + 1)) →
  format_duration duration = Py.fmt_02d h +:+ ":" +:+ Py.fmt_02d m.
Proof.
  intros [Hm0 Hm60] Hlo Hhi.
  rewrite !inject_Z_plus, !inject_Z_mult in Hlo, Hhi.
  rewrite inject_Z_plus in Hhi.
  change (inject_Z 3600) with 3600 in *. change (inject_Z 60) with 60 in *.
  change (inject_Z 1) with 1 in *.
  assert (Hm59 : (m + 1 ≤ 60)%Z) by lia.
  rewrite Zle_Qle in Hm0, Hm59. rewrite inject_Z_plus in Hm59.
  change (inject_Z 0) with 0 in *. change (inject_Z 60) with 60 in *.
  change (inject_Z 1) with 1 in *.
  assert (Hh : Qfloor (duration / 3600) = h).
  { apply Qfloor_unique.
    - change (duration / 3600) with (duration * (1 # 3600)). clear -Hm0 Hlo. lra.
    - rewrite inject_Z_plus. change (inject_Z 1) with 1.
      change (duration / 3600) with (duration * (1 # 3600)). clear -Hm59 Hhi. lra. }
  assert (Hmin : Qfloor (Py.mod_ duration 3600 / 60) = m).
  { unfold Py.mod_, Py.floordiv. rewrite Hh. apply Qfloor_unique.
    - change (?x / 60) with (x * (1 # 60)). clear -Hlo. lra.
    - rewrite inject_Z_plus. change (inject_Z 1) with 1.
      change (?x / 60) with (x * (1 # 60)). clear -Hhi. lra. }
  unfold format_duration, Py.floordiv. rewrite Hh.
  unfold Py.mod_, Py.floordiv in Hmin |- *. rewrite Hh in Hmin |- *. rewrite Hmin.
  by rewrite !int_inject_Z.
Qed.

Lemma format_duration_truncates_witness :
  format_duration 7559 = "02:05".
Proof.
  assert (H : format_duration 7559 = Py.fmt_02d 2 +:+ ":" +:+ Py.fmt_02d 5).
  { apply format_duration_truncates; [lia| |]; vm_compute; [discriminate|reflexivity]. }
  exact H.
Defined.

(** ** Names the manager does not know *)

(** X18. A station name that is not a key of [self.sessions] makes the station
    handlers raise [KeyError] for it ([remove_service] whether or not a row is
    selected), and a service without a price makes
    [add_service] (on an active station) and [add_service_only] raise
    [KeyError] for the service before anything is asked; in every case no box
    is shown and the manager is as it was. *)
Theorem unknown_names_raise_key_error (st : manager) (ps_name service : string)
    (confirm : bool) (now : Q) (now_hms : string) (selection : option nat) :
  (sessions st !! ps_name = None →
     start_session ps_name true now st = raise (Py.KeyError ps_name) st ∧
     end_session ps_name true now st = raise (Py.KeyError ps_name) st ∧
     add_service ps_name service confirm now_hms st = raise (Py.KeyError ps_name) st ∧
     remove_service ps_name selection confirm st = raise (Py.KeyError ps_name) st) ∧
  (service_prices (config st) !! service = None →
     add_service_only service confirm now_hms st = raise (Py.KeyError service) st ∧
     ∀ s, sessions st !! ps_name = Some s → active s = true →
       add_service ps_name service confirm now_hms st = raise (Py.KeyError service) st).
Proof.
  split.
  - intros Hs. unfold start_session, end_session, add_service, remove_service.
    by rewrite Hs.
  - intros Hp. unfold add_service_only, add_service, service_price. rewrite Hp.
    split; [done|]. intros s Hs Ha. by rewrite Hs, Ha.
Qed.

(** ** The summary of service-only rows *)





(** ** Removing a pending order that is there *)

(** X20. Removing the pending order at a position of the list: declined, it
    changes nothing and shows nothing; confirmed, it shows "Pending order
    removed" and takes out that order only, the orders before and after it
    staying in order, and nothing else changes. *)
Theorem remove_pending_order_in_place (st : manager) (i : nat) (o : pending_order) :
  pending_orders st !! i = Some o →
  let r := remove_pending_order (Some i) true st in
  remove_pending_order (Some i) false st = ret [] tt st ∧
  shown r = [showinfo "Success" "Pending order removed"] ∧
  pending_orders (after r)
    = take i (pending_orders st) ++ drop (S i) (pending_orders st) ∧
  after r = set_pending_orders (pending_orders (after r)) st.
Proof.
  intros Hi. cbn zeta.
  assert (Hlt : (i < length (pending_orders st))%nat) by (by eapply lookup_lt_Some).
  apply Nat.ltb_lt in Hlt.
  unfold remove_pending_order, Py.getitem, Py.del. rewrite Hi, Hlt. cbn.
  by rewrite delete_take_drop.
Qed.

Lemma remove_pending_order_in_place_witness :
  pending_orders AlexOrder.queued !! 0%nat = Some AlexOrder.order ∧
  pending_orders (after (remove_pending_order (Some 0%nat) true AlexOrder.queued))
  = take 0 (pending_orders AlexOrder.queued) ++ drop 1 (pending_orders AlexOrder.queued).
Proof.
  assert (Hi : pending_orders AlexOrder.queued !! 0%nat = Some AlexOrder.order)
    by (vm_compute; reflexivity).
  split; [exact Hi|].
  pose proof (remove_pending_order_in_place AlexOrder.queued 0 AlexOrder.order Hi) as H.
  cbv zeta in H. destruct H as (_ & _ & H & _). exact H.
Defined.
